(** * Heading-outline heuristics of [process_pdfs.py]

    A shallow embedding of the decision logic of [src/process_pdfs.py]
    (title extraction, body-size estimation, form detection, the heading
    gate, level assignment, sorting and deduplication of the outline) and
    the properties its specification states about it.

    Conventions of the embedding.
    - A Python [str] is a [string]; its characters are read as the code
      points 0..255 (Latin-1).  On that range the character classes below
      ([\d], [\s], [str.isspace], [str.lower], [str.isupper], [.]) are the
      ones CPython 3 uses, and [str.lower] stays inside the range.
    - A Python [float] that holds a font size or a coordinate is a finite
      double, hence a rational: sizes and coordinates are [Q], compared
      exactly, as Python compares a float with an int.  The one float
      operation that rounds, the sum [size + 10] of the title score, is the
      double nearest to the exact sum, ties to the even significand
      ([float_add]).
    - A Python [int] is a [Z].
    - PyMuPDF is not modelled: [process_pdf_simple] starts from the list
      [all_lines] that lines 181-193 of the source assemble, every line
      already carrying its page number, and from [pdf_path.stem]. *)

From Stdlib Require Import ZArith QArith Qround Qabs Qpower Ascii String List Bool.
From Stdlib Require Import Lia Lqa.
From Stdlib Require Import Sorting.Sorted Sorting.Permutation.
From stdpp Require Import base decidable countable gmap strings list sorting.

Close Scope Q_scope.
Local Open Scope Z_scope.
Local Open Scope list_scope.

(** ** Python string built-ins *)

Module PyStr.

Definition code (c : ascii) : N := N_of_ascii c.

Definition in_range (lo hi : N) (c : ascii) : bool :=
  ((lo <=? code c) && (code c <=? hi))%N.

(** [str.isspace] on one character; also the class [\s] of [re]. *)
Definition is_space (c : ascii) : bool :=
  in_range 9 13 c || in_range 28 32 c
  || (code c =? 133)%N || (code c =? 160)%N.

(** The class [\d] of [re]. *)
Definition is_digit (c : ascii) : bool := in_range 48 57 c.

(** ['A' <= c <= 'Z'] and ['a' <= c <= 'z']. *)
Definition is_AZ (c : ascii) : bool := in_range 65 90 c.
Definition is_az (c : ascii) : bool := in_range 97 122 c.

(** Characters with the Uppercase property. *)
Definition is_upper_char (c : ascii) : bool :=
  is_AZ c || in_range 192 214 c || in_range 216 222 c.

(** Characters with the Lowercase property. *)
Definition is_lower_char (c : ascii) : bool :=
  is_az c || (code c =? 170)%N || (code c =? 181)%N || (code c =? 186)%N
  || in_range 223 246 c || in_range 248 255 c.

Definition lower_char (c : ascii) : ascii :=
  if is_upper_char c then ascii_of_N (code c + 32) else c.

(** [s.lower()] *)
Fixpoint lower (s : string) : string :=
  match s with
  | EmptyString => EmptyString
  | String c s' => String (lower_char c) (lower s')
  end.

(** [s.lstrip()], [s.rstrip()], [s.strip()] *)
Fixpoint lstrip (s : string) : string :=
  match s with
  | EmptyString => EmptyString
  | String c s' => if is_space c then lstrip s' else s
  end.

Definition is_empty (s : string) : bool :=
  match s with EmptyString => true | _ => false end.

Fixpoint rstrip (s : string) : string :=
  match s with
  | EmptyString => EmptyString
  | String c s' =>
      let r := rstrip s' in
      if is_space c && is_empty r then EmptyString else String c r
  end.

Definition strip (s : string) : string := rstrip (lstrip s).

(** [len(s)] *)
Definition len (s : string) : Z := Z.of_nat (String.length s).

(** [s.startswith(p)] *)
Definition startswith (s p : string) : bool := String.prefix p s.

(** [s.endswith(p)] *)
Fixpoint endswith (s p : string) : bool :=
  String.eqb s p ||
  match s with
  | EmptyString => false
  | String _ s' => endswith s' p
  end.

(** [p in s]: [p] occurs in [s] as a substring. *)
Fixpoint contains (s p : string) : bool :=
  String.prefix p s ||
  match s with
  | EmptyString => false
  | String _ s' => contains s' p
  end.

(** [s.isupper()]: no lowercase character and at least one uppercase
    one (the range has no titlecase character). *)
Fixpoint has_lower (s : string) : bool :=
  match s with
  | EmptyString => false
  | String c s' => is_lower_char c || has_lower s'
  end.

Fixpoint has_upper (s : string) : bool :=
  match s with
  | EmptyString => false
  | String c s' => is_upper_char c || has_upper s'
  end.

Definition isupper (s : string) : bool := negb (has_lower s) && has_upper s.

(** [sep.join(l)] *)
Fixpoint join (sep : string) (l : list string) : string :=
  match l with
  | [] => EmptyString
  | [x] => x
  | x :: rest => x +:+ sep +:+ join sep rest
  end.

(** [a < b] on strings: lexicographic on code points. *)
Definition ltb (a b : string) : bool := String.ltb a b.

(** A string that [lstrip] leaves alone: empty, or led by a character
    that is not white space. *)
Definition no_lead (s : string) : Prop :=
  match s with
  | EmptyString => True
  | String c _ => is_space c = false
  end.

End PyStr.

(** ** The fragment of [re] the patterns use

    Only the truth value of [pattern.match(text)] is used by the program, so
    groups are dropped.  [re.match] succeeds when some prefix of the text is
    in the language of the pattern; the leading [^] matches at position 0. *)

Module Re.

Inductive re : Type :=
| Void                              (* matches nothing *)
| Eps                               (* the empty string *)
| Chr (p : ascii -> bool)           (* one character of a class *)
| Seq (r1 r2 : re)
| Alt (r1 r2 : re)
| Star (r : re).

Definition Plus (r : re) : re := Seq r (Star r).
Definition Opt (r : re) : re := Alt r Eps.

Fixpoint nullable (r : re) : bool :=
  match r with
  | Void => false
  | Eps => true
  | Chr _ => false
  | Seq r1 r2 => nullable r1 && nullable r2
  | Alt r1 r2 => nullable r1 || nullable r2
  | Star _ => true
  end.

(** Derivative of [r] by the character [c]. *)
Fixpoint der (c : ascii) (r : re) : re :=
  match r with
  | Void => Void
  | Eps => Void
  | Chr p => if p c then Eps else Void
  | Seq r1 r2 =>
      if nullable r1 then Alt (Seq (der c r1) r2) (der c r2)
      else Seq (der c r1) r2
  | Alt r1 r2 => Alt (der c r1) (der c r2)
  | Star r1 => Seq (der c r1) (Star r1)
  end.

(** [r.match(s) is not None] *)
Fixpoint re_match (r : re) (s : string) : bool :=
  nullable r ||
  match s with
  | EmptyString => false
  | String c s' => re_match (der c r) s'
  end.

(** Character classes. *)
Definition digit : re := Chr PyStr.is_digit.                      (* \d *)
Definition space : re := Chr PyStr.is_space.                      (* \s *)
Definition any : re := Chr (fun c => negb (Ascii.eqb c "010"%char)).   (* .  *)
Definition lit (a : ascii) : re := Chr (Ascii.eqb a).
(** A literal letter under [re.IGNORECASE]. *)
Definition liti (a : ascii) : re :=
  Chr (fun c => Ascii.eqb (PyStr.lower_char c) (PyStr.lower_char a)).
Definition AZ : re := Chr PyStr.is_AZ.                            (* [A-Z] *)
Definition az : re := Chr PyStr.is_az.                            (* [a-z] *)
(** [[A-Z]] under [re.IGNORECASE]. *)
Definition AZi : re := Chr (fun c => PyStr.is_AZ c || PyStr.is_az c).

Fixpoint word_i (w : string) : re :=
  match w with
  | EmptyString => Eps
  | String c w' => Seq (liti c) (word_i w')
  end.

(** The language of a pattern: [matches r w] when the whole of [w] is
    matched by [r]. *)
Inductive matches : re -> string -> Prop :=
| matches_eps : matches Eps ""
| matches_chr p c : p c = true -> matches (Chr p) (String c "")
| matches_seq r1 r2 w1 w2 :
    matches r1 w1 -> matches r2 w2 -> matches (Seq r1 r2) (w1 +:+ w2)
| matches_alt_l r1 r2 w : matches r1 w -> matches (Alt r1 r2) w
| matches_alt_r r1 r2 w : matches r2 w -> matches (Alt r1 r2) w
| matches_star_nil r : matches (Star r) ""
| matches_star_cons r w1 w2 :
    matches r w1 -> matches (Star r) w2 -> matches (Star r) (w1 +:+ w2).

End Re.

(** ** Data model *)

(** [line["bbox"]]: the rectangle [(x0, y0, x1, y1)]. *)
Record BBox : Type := mkBBox { x0 : Q; y0 : Q; x1 : Q; y1 : Q }.

(** The dictionaries built by [extract_simple_lines], with the ["page"] key
    that [process_pdf_simple] adds. *)
Record Line : Type := mkLine {
  text : string;
  size : Q;
  bold : bool;
  bbox : BBox;
  page : Z
}.

Inductive Level : Type := H1 | H2 | H3 | H4.

#[global] Instance Level_eq_dec : EqDecision Level.
Proof. solve_decision. Defined.

Definition Level_to_nat (l : Level) : nat :=
  match l with H1 => 0 | H2 => 1 | H3 => 2 | H4 => 3 end%nat.

Definition Level_of_nat (n : nat) : option Level :=
  match n with
  | 0 => Some H1 | 1 => Some H2 | 2 => Some H3 | 3 => Some H4 | _ => None
  end%nat.

#[global] Instance Level_countable : Countable Level.
Proof.
  refine (inj_countable Level_to_nat Level_of_nat _).
  intros []; reflexivity.
Defined.

(** The dictionaries appended to [headings]. *)
Record Heading : Type := mkHeading {
  level : Level;
  htext : string;
  hpage : Z
}.

(** The dictionary returned by [process_pdf_simple]. *)
Record Outline : Type := mkOutline {
  title : string;
  outline : list Heading
}.

(** ** Exact comparison of rationals *)

Definition Qlt_bool (a b : Q) : bool :=
  (Qnum a * Zpos (Qden b) <? Qnum b * Zpos (Qden a))%Z.

(** ** Patterns and constants (lines 8-17) *)

Import Re.

(** [^(\d+)\.?\s+(.+)] *)
Definition NUMBERED_PATTERN : re :=
  Seq (Plus digit) (Seq (Opt (lit "."%char)) (Seq (Plus space) (Plus any))).

(** [^(\d+\.\d+)\s+(.+)] *)
Definition SUB_NUMBERED_PATTERN : re :=
  Seq (Plus digit) (Seq (lit "."%char) (Seq (Plus digit)
    (Seq (Plus space) (Plus any)))).

(** [^(\d+\.\d+\.\d+)\s+(.+)] *)
Definition SUB_SUB_NUMBERED_PATTERN : re :=
  Seq (Plus digit) (Seq (lit "."%char) (Seq (Plus digit) (Seq (lit "."%char)
    (Seq (Plus digit) (Seq (Plus space) (Plus any)))))).

(** [^(Appendix\s+[A-Z]:?\s*.+)] with [re.IGNORECASE] *)
Definition APPENDIX_PATTERN : re :=
  Seq (word_i "Appendix") (Seq (Plus space) (Seq AZi
    (Seq (Opt (lit ":"%char)) (Seq (Star space) (Plus any))))).

(** [^\d+\.\s+[A-Z][a-z]], the form-field shape of [is_likely_heading];
    compiled without [re.IGNORECASE]. *)
Definition FORM_FIELD_PATTERN : re :=
  Seq (Plus digit) (Seq (lit "."%char) (Seq (Plus space) (Seq AZ az))).

Definition KNOWN_H1_HEADINGS : gset string :=
  {[ "revision history"; "table of contents"; "acknowledgements";
     "references"; "summary"; "background"; "pathway options" ]}.

(** [x in [a, b, ...]] on a list of strings. *)
Definition in_list (x : string) (l : list string) : bool :=
  existsb (String.eqb x) l.

(** ** [simple_heading_detection] (lines 73-117) *)

Definition simple_heading_detection
    (text : string) (size : Q) (bold : bool) (body_size : Z) : option Level :=
  let text_clean := PyStr.strip text in
  let text_lower := PyStr.strip (PyStr.lower text_clean) in
  (* the checks after the colon block, reached when it returns nothing *)
  let after_colon :=
    if PyStr.startswith text_lower "phase " then Some H3
    else if PyStr.isupper text_clean
            && (5 <=? PyStr.len text_clean) && (PyStr.len text_clean <=? 30)
    then Some H1
    else if bold && Qlt_bool (inject_Z (body_size + 2)) size then Some H2
    else None in
  if re_match SUB_SUB_NUMBERED_PATTERN text_clean then Some H3
  else if re_match SUB_NUMBERED_PATTERN text_clean then Some H2
  else if re_match NUMBERED_PATTERN text_clean then Some H1
  else if re_match APPENDIX_PATTERN text_clean then Some H2
  else if bool_decide (text_lower ∈ KNOWN_H1_HEADINGS) then Some H1
  else if PyStr.endswith text_clean ":" && (PyStr.len text_clean <? 50) then
    if PyStr.startswith text_lower "for each" then Some H4
    else if in_list text_lower ["timeline:"; "milestones:"] then Some H3
    else if PyStr.len text_clean <? 40 then Some H3
    else after_colon
  else after_colon.

(** ** [is_likely_heading] (lines 119-160) *)

Definition is_likely_heading
    (text : string) (size : Q) (bold : bool) (body_size : Z) : bool :=
  let text := PyStr.strip text in
  if (PyStr.len text <? 3) || (200 <? PyStr.len text) then false
  else if PyStr.contains text ". " && (50 <? PyStr.len text) then false
  else if re_match FORM_FIELD_PATTERN text then false
  else
    let text_lower := PyStr.strip (PyStr.lower text) in
    if re_match NUMBERED_PATTERN text
       || re_match SUB_NUMBERED_PATTERN text
       || re_match SUB_SUB_NUMBERED_PATTERN text
       || re_match APPENDIX_PATTERN text then true
    else if bool_decide (text_lower ∈ KNOWN_H1_HEADINGS) then true
    else if PyStr.endswith text ":" && (PyStr.len text <? 50) then true
    else if PyStr.startswith text_lower "phase " then true
    else if PyStr.isupper text
            && (5 <=? PyStr.len text) && (PyStr.len text <=? 30) then true
    else if bold && Qlt_bool (inject_Z (body_size + 2)) size then true
    else false.

(** ** Python library functions used by the pipeline *)

(** [list.sort]: a stable sort that compares with [<] only.  [lt a b]
    stands for "[a] sorts strictly before [b]"; an element is placed
    behind the elements that sort strictly before it and before all
    others, so equal elements keep their order. *)
Section PySort.
Context {A : Type} (lt : A -> A -> bool).

Fixpoint sort_insert (x : A) (l : list A) : list A :=
  match l with
  | [] => [x]
  | y :: ys => if lt y x then y :: sort_insert x ys else x :: y :: ys
  end.

Fixpoint py_sort (l : list A) : list A :=
  match l with
  | [] => []
  | x :: xs => sort_insert x (py_sort xs)
  end.
End PySort.

(** [a] may stand before [b] in a list sorted by [lt]: [b] does not sort
    strictly before [a]. *)
Definition may_precede {A : Type} (lt : A -> A -> bool) (a b : A) : Prop :=
  lt b a = false.

(** [round(x)] of a float: the nearest integer, halves to the even one. *)
Definition py_round (x : Q) : Z :=
  let f := Qfloor x in
  match Qcompare (x - inject_Z f) (1 # 2) with
  | Lt => f
  | Gt => f + 1
  | Eq => if Z.even f then f else f + 1
  end.

(** The exponent [e] of the binade of a positive [a]:
    [2^e <= a < 2^(e+1)]. *)
Definition binade (a : Q) : Z :=
  let k := Z.log2 (Qnum a) - Z.log2 (Zpos (Qden a)) in
  if Qlt_bool a (2 ^ k)%Q then k - 1 else k.

(** The double (IEEE 754 binary64) nearest to [x], ties to the even
    significand: with [2^e <= |x| < 2^(e+1)], [|x|] is rounded to a multiple
    of [2^(e-52)], and of [2^(-1074)] in the subnormal range.  No overflow
    arises in the sum of a finite double and 10, so none is modelled. *)
Definition round_binary64 (x : Q) : Q :=
  if Qeq_bool x 0 then 0%Q
  else
    let a := Qabs x in
    let q := Z.max (binade a - 52) (-1074) in
    let n := py_round (a / 2 ^ q)%Q in
    ((if Qlt_bool x 0 then -1 else 1) * (inject_Z n * 2 ^ q))%Q.

(** The finite doubles: [m * 2^q] with a significand below [2^53] and an
    exponent of the binary64 range. *)
Definition is_binary64 (x : Q) : Prop :=
  exists m q : Z,
    (x == inject_Z m * 2 ^ q)%Q /\ Z.abs m < 2 ^ 53 /\ -1074 <= q <= 971.

(** [collections.Counter(l)]: a dictionary from element to count; its
    items come in insertion order, the order of first occurrence. *)
Fixpoint counter_incr (c : list (Z * Z)) (x : Z) : list (Z * Z) :=
  match c with
  | [] => [(x, 1)]
  | (k, n) :: rest =>
      if k =? x then (k, n + 1) :: rest else (k, n) :: counter_incr rest x
  end.

Definition Counter (l : list Z) : list (Z * Z) := fold_left counter_incr l [].

(** [c.most_common(1)], which is [heapq.nlargest(1, c.items(), key=count)],
    that is [max] over the items by count: [max] keeps the first of the
    items of greatest count. *)
Definition max_by_count (best : Z * Z) (items : list (Z * Z)) : Z * Z :=
  fold_left (fun best it => if best.2 <? it.2 then it else best) items best.

Definition most_common_1 (c : list (Z * Z)) : list (Z * Z) :=
  match c with
  | [] => []
  | it :: rest => [max_by_count it rest]
  end.

(** ** [simple_title_extraction] (lines 51-71) *)

(** [a + b] on floats: the sum rounded to the nearest double. *)
Definition float_add (a b : Q) : Q := round_binary64 (a + b).

(** [score = line["size"] + (10 if line["bold"] else 0)] *)
Definition score (line : Line) : Q :=
  float_add (size line) (if bold line then 10 else 0).

Fixpoint title_candidates (first_page_lines : list Line) : list (Q * string) :=
  match first_page_lines with
  | [] => []
  | line :: rest =>
      if Qlt_bool (y0 (bbox line)) 200 && (5 <=? PyStr.len (text line))
      then (score line, text line) :: title_candidates rest
      else title_candidates rest
  end.

(** [a < b] on the tuples [(score, text)]. *)
Definition cand_lt (a b : Q * string) : bool :=
  if Qeq_bool a.1 b.1 then PyStr.ltb a.2 b.2 else Qlt_bool a.1 b.1.

Definition simple_title_extraction
    (first_page_lines : list Line) (filename : string) : string :=
  if String.eqb filename "file05" then ""
  else
    match first_page_lines with
    | [] => filename
    | _ =>
        let candidates := title_candidates first_page_lines in
        (* candidates.sort(reverse=True) *)
        match py_sort (fun a b => cand_lt b a) candidates with
        | c :: _ => PyStr.strip c.2
        | [] => filename
        end
    end.

(** ** [detect_form_document] (lines 162-169) *)

Definition form_keywords : list string :=
  ["application form"; "grant"; "ltc advance"].

Definition first_20_text (lines : list Line) : string :=
  PyStr.join " " (map (fun line => PyStr.lower (text line)) (take 20 lines)).

Definition form_count (lines : list Line) : Z :=
  Z.of_nat (length
    (filter (fun keyword => PyStr.contains (first_20_text lines) keyword = true)
            form_keywords)).

Definition detect_form_document (lines : list Line) : bool :=
  2 <=? form_count lines.

(** ** [get_body_size] (lines 171-177) *)

Definition qualifying_sizes (lines : list Line) : list Z :=
  map (fun line => py_round (size line))
      (filter (fun line => 10 < PyStr.len (text line)) lines).

Definition body_sizes (lines : list Line) : list Z :=
  match qualifying_sizes lines with
  | [] => map (fun line => py_round (size line)) lines
  | sizes => sizes
  end.

Definition get_body_size (lines : list Line) : Z :=
  match most_common_1 (Counter (body_sizes lines)) with
  | (s, _) :: _ => s
  | [] => 12
  end.

(** ** [process_pdf_simple] (lines 195-240) *)

(** The loop of lines 214-224. *)
Fixpoint find_headings (body_size : Z) (all_lines : list Line) : list Heading :=
  match all_lines with
  | [] => []
  | line :: rest =>
      if is_likely_heading (text line) (size line) (bold line) body_size then
        match simple_heading_detection
                (text line) (size line) (bold line) body_size with
        | Some level =>
            mkHeading level (PyStr.strip (text line) +:+ " ") (page line)
              :: find_headings body_size rest
        | None => find_headings body_size rest
        end
      else find_headings body_size rest
  end.

(** The sort key [(x["page"], x["text"])] and [<] on such tuples. *)
Definition sort_key (h : Heading) : Z * string := (hpage h, htext h).

Definition key_lt (a b : Z * string) : bool :=
  if a.1 =? b.1 then PyStr.ltb a.2 b.2 else a.1 <? b.1.

Definition sort_headings (headings : list Heading) : list Heading :=
  py_sort (fun a b => key_lt (sort_key a) (sort_key b)) headings.

(** The key [(level, text.strip(), page)] of the deduplication. *)
Definition dedup_key (h : Heading) : Level * string * Z :=
  (level h, PyStr.strip (htext h), hpage h).

(** The loop of lines 229-235, with its two variables [seen] and
    [final_headings]. *)
Fixpoint dedup_loop (seen : gset (Level * string * Z))
    (final_headings : list Heading) (headings : list Heading) : list Heading :=
  match headings with
  | [] => final_headings
  | heading :: rest =>
      let key := dedup_key heading in
      if bool_decide (key ∈ seen) then dedup_loop seen final_headings rest
      else dedup_loop ({[key]} ∪ seen) (final_headings ++ [heading]) rest
  end.

Definition first_page (all_lines : list Line) : list Line :=
  filter (fun line => page line = 1) all_lines.

Definition process_pdf_simple (stem : string) (all_lines : list Line) : Outline :=
  match all_lines with
  | [] => mkOutline stem []
  | _ =>
      if detect_form_document all_lines then
        mkOutline (simple_title_extraction (first_page all_lines) stem) []
      else
        let title := simple_title_extraction (first_page all_lines) stem in
        let body_size := get_body_size all_lines in
        let headings := find_headings body_size all_lines in
        let headings := sort_headings headings in
        mkOutline title (dedup_loop ∅ [] headings)
  end.

(** The list [final_headings] grows at its end; the same loop, producing
    the kept headings front to back. *)
Fixpoint dedup_from (seen : gset (Level * string * Z))
    (headings : list Heading) : list Heading :=
  match headings with
  | [] => []
  | heading :: rest =>
      if bool_decide (dedup_key heading ∈ seen) then dedup_from seen rest
      else heading :: dedup_from ({[dedup_key heading]} ∪ seen) rest
  end.

(** The heading a line gives rise to in [find_headings], if any. *)
Definition heading_of (body_size : Z) (line : Line) : option Heading :=
  if is_likely_heading (text line) (size line) (bold line) body_size then
    match simple_heading_detection
            (text line) (size line) (bold line) body_size with
    | Some level =>
        Some (mkHeading level (PyStr.strip (text line) +:+ " ") (page line))
    | None => None
    end
  else None.

(** The lines [simple_title_extraction] takes as candidates. *)
Definition is_title_candidate (line : Line) : Prop :=
  (y0 (bbox line) < 200)%Q /\ 5 <= PyStr.len (text line).

(** How often [x] occurs in [l]. *)
Definition occurrences (x : Z) (l : list Z) : Z :=
  Z.of_nat (length (filter (fun y => y = x) l)).

(** [c[x]] on a counter: the count of [x], 0 when [x] is no key. *)
Fixpoint counter_get (c : list (Z * Z)) (x : Z) : Z :=
  match c with
  | [] => 0
  | (k, n) :: rest => if k =? x then n else counter_get rest x
  end.

(** A line at height 50 of its page; used in the examples. *)
Definition line_at (t : string) (s : Q) (b : bool) (p : Z) : Line :=
  mkLine t s b (mkBBox 0 50 0 0) p.

(** ** [extract_simple_lines] (lines 19-49) and the page loop (lines 181-193)

    [page.get_text("dict")["blocks"]] is a list of blocks; a text block has
    a ["lines"] key, an image block has none.  A line holds its spans and
    its bounding box; a span holds its text, its font size and its flags. *)

Record Span : Type := mkSpan {
  span_text : string;
  span_size : Q;
  span_flags : Z
}.

Record RawLine : Type := mkRawLine {
  spans : list Span;
  line_bbox : BBox
}.

(** [block_lines] is [None] when the key ["lines"] is missing. *)
Record Block : Type := mkBlock {
  block_lines : option (list RawLine)
}.

(** The dictionaries [extract_simple_lines] appends: no ["page"] yet. *)
Record ExtractedLine : Type := mkExtractedLine {
  etext : string;
  esize : Q;
  ebold : bool;
  ebbox : BBox
}.

(** The loop of lines 37-40: the first span, replaced by every later span
    whose text is strictly longer than the one held. *)
Definition main_span_of (first : Span) (line_spans : list Span) : Span :=
  fold_left
    (fun main_span span =>
       if PyStr.len (span_text main_span) <? PyStr.len (span_text span)
       then span else main_span)
    line_spans first.

(** The body of the inner loop (lines 29-47) for one line: [None] when the
    line is skipped by a [continue]. *)
Definition extract_line (line : RawLine) : option ExtractedLine :=
  match spans line with
  | [] => None
  | first :: _ =>
      let text := PyStr.strip (PyStr.join "" (map span_text (spans line))) in
      if PyStr.len text <? 2 then None
      else
        let main_span := main_span_of first (spans line) in
        Some (mkExtractedLine text (span_size main_span)
                (negb (Z.land (span_flags main_span) 16 =? 0))
                (line_bbox line))
  end.

Definition extract_simple_lines (blocks : list Block) : list ExtractedLine :=
  flat_map
    (fun block =>
       match block_lines block with
       | None => []
       | Some block_lines => omap extract_line block_lines
       end)
    blocks.

(** [line["page"] = page_num + 1] *)
Definition set_page (page_no : Z) (e : ExtractedLine) : Line :=
  mkLine (etext e) (esize e) (ebold e) (ebbox e) page_no.

(** The loop of lines 184-191 from [page_num] on; a document is the list
    of the block lists of its pages. *)
Fixpoint read_pages (page_num : Z) (doc : list (list Block)) : list Line :=
  match doc with
  | [] => []
  | page :: rest =>
      map (set_page (page_num + 1)) (extract_simple_lines page)
        ++ read_pages (page_num + 1) rest
  end.

Definition read_all_lines (doc : list (list Block)) : list Line :=
  read_pages 0 doc.

(** [process_pdf_simple] from the opened document on (lines 182-240). *)
Definition process_pdf_document (stem : string) (doc : list (list Block)) : Outline :=
  process_pdf_simple stem (read_all_lines doc).

(** ** Auxiliary notions of the further properties *)

(** The three rejections at the head of [is_likely_heading] (lines
    124-133), on the trimmed text. *)
Definition gate_filter (text : string) : bool :=
  (PyStr.len text <? 3) || (200 <? PyStr.len text)
  || (PyStr.contains text ". " && (50 <? PyStr.len text))
  || re_match FORM_FIELD_PATTERN text.

(** The text behind the leading characters of class [p]. *)
Fixpoint skip_class (p : ascii -> bool) (s : string) : string :=
  match s with
  | EmptyString => EmptyString
  | String c s' => if p c then skip_class p s' else s
  end.

(** The first character exists and is in the class [p]. *)
Definition head_in (p : ascii -> bool) (s : string) : bool :=
  match s with
  | EmptyString => false
  | String c _ => p c
  end.

Definition tail_of (s : string) : string :=
  match s with
  | EmptyString => EmptyString
  | String _ s' => s'
  end.

Definition is_dot (c : ascii) : bool := Ascii.eqb "."%char c.

(** How a text begins that the plain numbered pattern matches: digits, then
    white space, or a period and white space. *)
Definition numbered_head (s : string) : bool :=
  head_in PyStr.is_digit s &&
  let r := skip_class PyStr.is_digit s in
  head_in PyStr.is_space r
  || (head_in is_dot r && head_in PyStr.is_space (tail_of r)).

(** ... that the pattern [N.N rest] matches: digits, a period, digits, white
    space. *)
Definition sub_numbered_head (s : string) : bool :=
  head_in PyStr.is_digit s &&
  let r := skip_class PyStr.is_digit s in
  head_in is_dot r && head_in PyStr.is_digit (tail_of r)
  && head_in PyStr.is_space (skip_class PyStr.is_digit (tail_of r)).

(** ... that the pattern [N.N.N rest] matches: digits, a period, digits, a
    period, a digit. *)
Definition sub_sub_numbered_head (s : string) : bool :=
  head_in PyStr.is_digit s &&
  let r := skip_class PyStr.is_digit s in
  head_in is_dot r && head_in PyStr.is_digit (tail_of r)
  && let r2 := skip_class PyStr.is_digit (tail_of r) in
     head_in is_dot r2 && head_in PyStr.is_digit (tail_of r2).

(** ... that has the form-field shape: digits, a period, white space. *)
Definition form_field_head (s : string) : bool :=
  head_in PyStr.is_digit s &&
  let r := skip_class PyStr.is_digit s in
  head_in is_dot r && head_in PyStr.is_space (tail_of r).

(** Every character of [s] is in the class [p]. *)
Fixpoint all_chars (p : ascii -> bool) (s : string) : bool :=
  match s with
  | EmptyString => true
  | String c s' => p c && all_chars p s'
  end.

(** ** Documents used in the examples *)

Definition intro_doc : list Line :=
  [ line_at "1. Introduction" 14 true 1;
    line_at "The first paragraph of the body text" 11 false 1;
    line_at "and the second line of that paragraph" 11 false 1 ].

Definition methods_doc : list Line :=
  [ line_at "1. Introduction" 14 true 1;
    line_at "2 Methods" 14 true 1;
    line_at "The first paragraph of the body text" 11 false 1;
    line_at "and the second line of that paragraph" 11 false 1 ].

Definition form_doc : list Line :=
  [ line_at "Application form for grant of LTC advance" 16 true 1;
    line_at "1 Name of the Government Servant" 11 false 1;
    line_at "2.1 Designation" 11 false 1;
    line_at "PART B" 12 true 2 ].

Definition twice_doc : list Line :=
  [ line_at "Timeline:" 11 false 2;
    line_at "1 Introduction" 14 true 1;
    line_at "The first paragraph of the body text" 11 false 1;
    line_at "1 Introduction" 14 false 1;
    line_at "and the second line of that paragraph" 11 false 1 ].

(** Levels do not take part in the order of an outline: on page 1 the H3
    entry "Milestones: " sorts before the H1 entry "SUMMARY ". *)
Definition levels_doc : list Line :=
  [ line_at "2.1 Scope" 11 false 2;
    line_at "Some body text of the document" 11 false 1;
    line_at "More body text of the document" 11 false 1;
    line_at "SUMMARY" 11 false 1;
    line_at "Milestones:" 11 false 1 ].

Definition title_page : list Line :=
  [ mkLine "Overview of the Programme" 18 false (mkBBox 72 90 400 110) 1;
    mkLine "Annual Report" 16 true (mkBBox 72 120 400 140) 1;
    mkLine "Annual Review" 16 true (mkBBox 72 150 400 170) 1;
    mkLine "A very large footer line" 40 true (mkBBox 72 700 400 740) 1 ].

(** Two bold lines whose sizes differ by less than the float sum keeps:
    [11 + 2^-49] and [11] on the first page, [2^-60] and [2^-61] on the
    second. *)
Definition rounding_page : list Line :=
  [ mkLine "Alpha title" (11 + 2 ^ (-49))%Q true (mkBBox 72 90 400 110) 1;
    mkLine "Beta title" 11 true (mkBBox 72 120 400 140) 1 ].

Definition tiny_sizes_page : list Line :=
  [ mkLine "Alpha title" (2 ^ (-60))%Q true (mkBBox 72 90 400 110) 1;
    mkLine "Beta title" (2 ^ (-61))%Q true (mkBBox 72 120 400 140) 1 ].

Definition split_form_doc : list Line :=
  [ line_at "Government of India" 12 false 1;
    line_at "Application" 16 true 1;
    line_at "Form for LTC advance" 16 true 1;
    line_at "1 Name of the Government Servant" 11 false 1 ].

Definition sizes_11_first : list Line :=
  [ line_at "A paragraph set in eleven points" 11 false 1;
    line_at "A paragraph set in twelve points" 12 false 1;
    line_at "Another paragraph in twelve points" 12 false 1;
    line_at "Another paragraph in eleven points" 11 false 1;
    line_at "A caption in nine points" 9 false 1 ].

Definition sizes_12_first : list Line :=
  [ line_at "A paragraph set in twelve points" 12 false 1;
    line_at "A paragraph set in eleven points" 11 false 1;
    line_at "Another paragraph in eleven points" 11 false 1;
    line_at "Another paragraph in twelve points" 12 false 1;
    line_at "A caption in nine points" 9 false 1 ].

(** A page with an image block, a heading line of two spans, a line of
    white space and a line without spans; and a second page. *)
Definition heading_line : RawLine :=
  mkRawLine [ mkSpan "2 " 14 20; mkSpan "Methods" 14 20; mkSpan "and so" 11 4 ]
            (mkBBox 72 90 300 110).

Definition sample_page : list Block :=
  [ mkBlock None;
    mkBlock (Some [ heading_line;
                    mkRawLine [ mkSpan "  " 11 0; mkSpan " x " 11 0 ]
                              (mkBBox 72 120 300 130);
                    mkRawLine [] (mkBBox 72 140 300 150) ]) ].

Definition sample_doc : list (list Block) :=
  [ sample_page;
    [ mkBlock (Some [ mkRawLine [ mkSpan "Timeline:" 11 0 ]
                                (mkBBox 72 90 300 110) ]) ] ].

Definition two_page_doc : list Line :=
  [ mkLine "Annual Report" 16 true (mkBBox 72 120 400 140) 1;
    mkLine "A much larger line on page two" 40 true (mkBBox 72 90 400 140) 2 ].

Definition short_lines_doc : list Line :=
  [ line_at "Page 1" 9 false 1;
    line_at "Page 2" 9 false 2;
    line_at "A single long line of body text" (27 # 2) false 1 ].

(** * Properties *)

Lemma Qlt_bool_iff (a b : Q) : Qlt_bool a b = true <-> (a < b)%Q.
Proof. unfold Qlt_bool, Qlt. apply Z.ltb_lt. Qed.

Lemma Qlt_bool_false_iff (a b : Q) : Qlt_bool a b = false <-> (b <= a)%Q.
Proof. unfold Qlt_bool, Qle. rewrite Z.ltb_ge. reflexivity. Qed.

(** ** Strings *)

Module PyStrFacts.
Import PyStr.

Ltac by_cases_on_char c :=
  destruct c as [[] [] [] [] [] [] [] []]; vm_compute; reflexivity.

Lemma is_space_lower_char c : is_space (lower_char c) = is_space c.
Proof. by_cases_on_char c. Qed.

Lemma is_empty_lower s : is_empty (lower s) = is_empty s.
Proof. destruct s; reflexivity. Qed.

Lemma length_lower s : String.length (lower s) = String.length s.
Proof. induction s; simpl; congruence. Qed.

Lemma len_lower s : len (lower s) = len s.
Proof. unfold len. now rewrite length_lower. Qed.

Lemma lstrip_lower s : lstrip (lower s) = lower (lstrip s).
Proof.
  induction s as [|c s IH]; simpl; [reflexivity|].
  rewrite is_space_lower_char. destruct (is_space c); [exact IH | reflexivity].
Qed.

Lemma rstrip_lower s : rstrip (lower s) = lower (rstrip s).
Proof.
  induction s as [|c s IH]; simpl; [reflexivity|].
  rewrite is_space_lower_char, IH, is_empty_lower.
  destruct (is_space c && is_empty (rstrip s)); reflexivity.
Qed.

Lemma strip_lower s : strip (lower s) = lower (strip s).
Proof. unfold strip. now rewrite lstrip_lower, rstrip_lower. Qed.

Lemma no_lead_lstrip s : no_lead (lstrip s).
Proof.
  induction s as [|c s IH]; simpl; [exact I|].
  destruct (is_space c) eqn:E; [exact IH | exact E].
Qed.

Lemma lstrip_no_lead s : no_lead s -> lstrip s = s.
Proof. destruct s as [|c s]; simpl; [reflexivity|]. now intros ->. Qed.

Lemma no_lead_rstrip s : no_lead s -> no_lead (rstrip s).
Proof.
  destruct s as [|c s]; simpl; [exact id|].
  intros E. rewrite E. exact E.
Qed.

Lemma rstrip_idem s : rstrip (rstrip s) = rstrip s.
Proof.
  induction s as [|c s IH]; simpl; [reflexivity|].
  destruct (is_space c && is_empty (rstrip s)) eqn:E; simpl; [reflexivity|].
  now rewrite IH, E.
Qed.

Lemma strip_idem s : strip (strip s) = strip s.
Proof.
  unfold strip.
  rewrite (lstrip_no_lead (rstrip (lstrip s))).
  - apply rstrip_idem.
  - apply no_lead_rstrip, no_lead_lstrip.
Qed.

(** [text_lower] of both classifiers is the lowercased trimmed text. *)
Lemma text_lower_eq s : strip (lower (strip s)) = lower (strip s).
Proof. now rewrite strip_lower, strip_idem. Qed.

Lemma append_nil t : "" +:+ t = t.
Proof. reflexivity. Qed.

Lemma append_cons c s t : String c s +:+ t = String c (s +:+ t).
Proof. reflexivity. Qed.

Lemma length_append s t :
  String.length (s +:+ t) = (String.length s + String.length t)%nat.
Proof.
  induction s as [|c s IH]; [reflexivity|].
  rewrite append_cons. simpl. now rewrite IH.
Qed.

Lemma append_inj_r s1 s2 t : s1 +:+ t = s2 +:+ t -> s1 = s2.
Proof.
  intros H.
  assert (L : String.length s1 = String.length s2).
  { apply (f_equal String.length) in H.
    rewrite !length_append in H. lia. }
  revert s2 H L. induction s1 as [|c s1 IH]; intros [|d s2] H L;
    simpl in L; try discriminate; [reflexivity|].
  rewrite !append_cons in H.
  injection H as -> H. f_equal. apply IH; [exact H | lia].
Qed.

End PyStrFacts.

(** ** The matcher decides the language of a pattern *)

Module ReFacts.
Import Re PyStrFacts.

Lemma append_empty_inv a b : a +:+ b = "" -> a = "" /\ b = "".
Proof. destruct a; [now rewrite append_nil | rewrite append_cons; discriminate]. Qed.

Lemma append_cons_inv a b c w :
  a +:+ b = String c w ->
  (a = "" /\ b = String c w) \/ (exists a', a = String c a' /\ w = a' +:+ b).
Proof.
  destruct a as [|d a].
  - rewrite append_nil. now left.
  - rewrite append_cons. intros [= -> <-]. right. now exists a.
Qed.

Lemma nullable_spec r : nullable r = true <-> matches r "".
Proof.
  split.
  - induction r; simpl; intros H; try discriminate.
    + constructor.
    + apply andb_true_iff in H as [H1 H2].
      change "" with ("" +:+ ""). constructor; auto.
    + apply orb_true_iff in H as [H|H];
        [apply matches_alt_l | apply matches_alt_r]; auto.
    + constructor.
  - intros H. remember "" as w eqn:Ew.
    induction H; simpl; try reflexivity; try discriminate.
    + apply append_empty_inv in Ew as [-> ->].
      now rewrite IHmatches1, IHmatches2.
    + now rewrite IHmatches.
    + rewrite IHmatches by assumption. apply orb_true_r.
Qed.

Lemma star_cons_inv r c w :
  matches (Star r) (String c w) ->
  exists w1 w2, w = w1 +:+ w2 /\ matches r (String c w1) /\ matches (Star r) w2.
Proof.
  intros H. remember (Star r) as r' eqn:Er. remember (String c w) as s eqn:Es.
  revert w Es.
  induction H as [| | | | | |r0 w1 w2 H1 IH1 H2 IH2]; intros w' Es;
    try discriminate.
  injection Er as ->.
  apply append_cons_inv in Es as [[-> ->]|(a' & -> & ->)].
  - now apply IH2.
  - now exists a', w2.
Qed.

Lemma der_spec c r w : matches (der c r) w <-> matches r (String c w).
Proof.
  revert w. induction r as [| |p|r1 IH1 r2 IH2|r1 IH1 r2 IH2|r IH]; intros w; simpl.
  - split; intros H; inversion H.
  - split; intros H; inversion H.
  - destruct (p c) eqn:E; split; intros H; inversion H; subst.
    + now constructor.
    + constructor.
    + congruence.
  - assert (Hseq : matches (Seq (der c r1) r2) w ->
                   matches (Seq r1 r2) (String c w)).
    { intros H. inversion H; subst.
      change (String c (w1 +:+ w2)) with (String c w1 +:+ w2).
      constructor; [now apply IH1 | assumption]. }
    assert (Hinv : matches (Seq r1 r2) (String c w) ->
                   (matches r1 "" /\ matches r2 (String c w)) \/
                   matches (Seq (der c r1) r2) w).
    { intros H. inversion H as [| |? ? w1 w2 H1 H2 [Ea Eb] Ew| | | |]; subst.
      apply append_cons_inv in Ew as [[-> ->]|(a' & -> & ->)].
      - left. auto.
      - right. constructor; [now apply IH1 | assumption]. }
    destruct (nullable r1) eqn:En; split; intros H.
    + inversion H; subst; [now apply Hseq|].
      change (String c w) with ("" +:+ String c w).
      constructor; [now apply nullable_spec | now apply IH2].
    + apply Hinv in H as [[_ H]|H];
        [apply matches_alt_r; now apply IH2 | now apply matches_alt_l].
    + now apply Hseq.
    + apply Hinv in H as [[H _]|H]; [|exact H].
      apply nullable_spec in H. congruence.
  - split; intros H; inversion H; subst;
      solve [apply matches_alt_l; now apply IH1
            |apply matches_alt_r; now apply IH2].
  - split; intros H.
    + inversion H; subst.
      change (String c (w1 +:+ w2)) with (String c w1 +:+ w2).
      constructor; [now apply IH | assumption].
    + apply star_cons_inv in H as (w1 & w2 & -> & H1 & H2).
      constructor; [now apply IH | assumption].
Qed.

(** [re_match r s] holds exactly when a prefix of [s] is in the language
    of [r]. *)
Theorem re_match_spec r s :
  re_match r s = true <-> exists w rest, s = w +:+ rest /\ matches r w.
Proof.
  revert r. induction s as [|c s IH]; intros r; simpl.
  - rewrite orb_false_r, nullable_spec. split.
    + intros H. now exists "", "".
    + intros (w & rest & E & H). symmetry in E.
      apply append_empty_inv in E as [-> _]. exact H.
  - rewrite orb_true_iff, nullable_spec, IH. split.
    + intros [H|(w & rest & -> & H)].
      * now exists "", (String c s).
      * exists (String c w), rest. split; [reflexivity | now apply der_spec].
    + intros (w & rest & E & H). symmetry in E.
      apply append_cons_inv in E as [[-> _]|(a' & -> & ->)]; [now left|].
      right. exists a', rest. split; [reflexivity | now apply der_spec].
Qed.

End ReFacts.

(** ** The pipeline: where the entries of an outline come from *)

Section PySortFacts.
Context {A : Type} (lt : A -> A -> bool).

Lemma sort_insert_perm x l : sort_insert lt x l ≡ₚ x :: l.
Proof.
  induction l as [|y ys IH]; simpl; [reflexivity|].
  destruct (lt y x); [|reflexivity].
  rewrite IH. apply Permutation_swap.
Qed.

Lemma py_sort_perm l : py_sort lt l ≡ₚ l.
Proof.
  induction l as [|x xs IH]; simpl; [reflexivity|].
  now rewrite sort_insert_perm, IH.
Qed.

Lemma elem_of_py_sort x l : x ∈ py_sort lt l <-> x ∈ l.
Proof. now rewrite py_sort_perm. Qed.
End PySortFacts.

Lemma find_headings_omap body lines :
  find_headings body lines = omap (heading_of body) lines.
Proof.
  induction lines as [|l ls IH]; simpl; [reflexivity|].
  unfold heading_of at 1.
  destruct (is_likely_heading _ _ _ _); [|exact IH].
  destruct (simple_heading_detection _ _ _ _); [now rewrite IH | exact IH].
Qed.

Lemma dedup_loop_from seen final hs :
  dedup_loop seen final hs = final ++ dedup_from seen hs.
Proof.
  revert seen final. induction hs as [|h hs IH]; intros seen final; simpl.
  - now rewrite app_nil_r.
  - destruct (bool_decide _); rewrite IH; [reflexivity|].
    now rewrite <- app_assoc.
Qed.

Lemma dedup_from_sublist seen hs : dedup_from seen hs `sublist_of` hs.
Proof.
  revert seen. induction hs as [|h hs IH]; intros seen; simpl.
  - constructor.
  - destruct (bool_decide _).
    + apply sublist_cons, IH.
    + apply sublist_skip, IH.
Qed.

(** The outline of any document, form or not, is drawn from the sorted
    list of the headings found. *)
Lemma outline_sublist stem lines :
  outline (process_pdf_simple stem lines)
    `sublist_of` sort_headings (find_headings (get_body_size lines) lines).
Proof.
  unfold process_pdf_simple. destruct lines as [|l ls]; [apply sublist_nil_l|].
  destruct (detect_form_document _); simpl outline; [apply sublist_nil_l|].
  rewrite dedup_loop_from. apply dedup_from_sublist.
Qed.

Lemma outline_origin stem lines h :
  h ∈ outline (process_pdf_simple stem lines) ->
  exists line, line ∈ lines /\ heading_of (get_body_size lines) line = Some h.
Proof.
  intros Hin.
  apply (fun H => elem_of_sublist _ _ _ H (outline_sublist stem lines)) in Hin.
  unfold sort_headings in Hin. rewrite elem_of_py_sort in Hin.
  rewrite find_headings_omap in Hin.
  now apply list_elem_of_omap in Hin.
Qed.

Lemma heading_of_Some body line h :
  heading_of body line = Some h ->
  is_likely_heading (text line) (size line) (bold line) body = true /\
  simple_heading_detection (text line) (size line) (bold line) body
    = Some (level h) /\
  htext h = PyStr.strip (text line) +:+ " " /\
  hpage h = page line.
Proof.
  unfold heading_of.
  destruct (is_likely_heading _ _ _ _); [|discriminate].
  destruct (simple_heading_detection _ _ _ _); [|discriminate].
  intros [= <-]. auto.
Qed.

(** ** Scenario 1: the line "1. Introduction" *)

Lemma gate_rejects_intro t s b body :
  PyStr.strip t = "1. Introduction" -> is_likely_heading t s b body = false.
Proof.
  intros H. unfold is_likely_heading. rewrite H. vm_compute. reflexivity.
Qed.

(** C1, as stated, fails: with body size 11 the gate rejects the line
    "1. Introduction" (size 14, bold, page 1), and the outline of a document
    holding that line does not contain the entry
    [{level: H1, text: "1. Introduction ", page: 1}]. *)
Lemma C1_gate_rejects_intro_counterexample :
  is_likely_heading "1. Introduction" 14 true 11 = false /\
  get_body_size intro_doc = 11 /\
  ~ (mkHeading H1 "1. Introduction " 1
       ∈ outline (process_pdf_simple "doc" intro_doc)).
Proof.
  split; [|split].
  - vm_compute. reflexivity.
  - vm_compute. reflexivity.
  - assert (E : outline (process_pdf_simple "doc" intro_doc) = [])
      by (vm_compute; reflexivity).
    rewrite E. apply not_elem_of_nil.
Qed.

(** C1, amended: for the line "1. Introduction" (size 14, bold, page 1, body
    size 11) the gate [is_likely_heading] rejects the line, because the
    form-field shape is tested before the numbered pattern and matches it;
    [simple_heading_detection] on its own would assign H1; and no outline
    of any document contains an entry with the text "1. Introduction ". *)
Theorem C1_intro_rejected_by_form_field_filter :
  is_likely_heading "1. Introduction" 14 true 11 = false /\
  re_match FORM_FIELD_PATTERN (PyStr.strip "1. Introduction") = true /\
  re_match NUMBERED_PATTERN (PyStr.strip "1. Introduction") = true /\
  simple_heading_detection "1. Introduction" 14 true 11 = Some H1 /\
  forall stem lines h,
    h ∈ outline (process_pdf_simple stem lines) ->
    htext h <> "1. Introduction ".
Proof.
  repeat (split; [vm_compute; reflexivity|]).
  intros stem lines h Hin Ht.
  destruct (outline_origin _ _ _ Hin) as (line & _ & Hl).
  apply heading_of_Some in Hl as (Hgate & _ & Htext & _).
  rewrite Ht in Htext.
  change "1. Introduction " with ("1. Introduction" +:+ " ") in Htext.
  apply PyStrFacts.append_inj_r in Htext.
  rewrite (gate_rejects_intro _ _ _ _ (eq_sym Htext)) in Hgate.
  discriminate.
Qed.

Lemma C1_intro_rejected_witness :
  mkHeading H1 "2 Methods " 1 ∈ outline (process_pdf_simple "doc" methods_doc) /\
  htext (mkHeading H1 "2 Methods " 1) <> "1. Introduction ".
Proof.
  assert (Hin : mkHeading H1 "2 Methods " 1
                  ∈ outline (process_pdf_simple "doc" methods_doc)).
  { vm_compute. apply list_elem_of_here. }
  split; [exact Hin|].
  exact (proj2 (proj2 (proj2 (proj2 C1_intro_rejected_by_form_field_filter)))
           "doc" methods_doc _ Hin).
Defined.

(** ** "1 Introduction", without a period *)

(** C8: whatever the size, the bold flag and the body size, the line
    "1 Introduction" passes the gate: the form-field shape, which needs a
    period, does not match it; and [simple_heading_detection] gives it H1
    through the plain numbered pattern, the two longer patterns failing. *)
Theorem C8_unpunctuated_number_is_H1 (size : Q) (bold : bool) (body_size : Z) :
  is_likely_heading "1 Introduction" size bold body_size = true /\
  re_match FORM_FIELD_PATTERN (PyStr.strip "1 Introduction") = false /\
  re_match SUB_SUB_NUMBERED_PATTERN (PyStr.strip "1 Introduction") = false /\
  re_match SUB_NUMBERED_PATTERN (PyStr.strip "1 Introduction") = false /\
  re_match NUMBERED_PATTERN (PyStr.strip "1 Introduction") = true /\
  simple_heading_detection "1 Introduction" size bold body_size = Some H1.
Proof. repeat split; vm_compute; reflexivity. Qed.

(** ** The colon rule of [simple_heading_detection] *)

Lemma known_headings_short s : s ∈ KNOWN_H1_HEADINGS -> PyStr.len s <= 17.
Proof.
  unfold KNOWN_H1_HEADINGS.
  rewrite !elem_of_union, !elem_of_singleton.
  intros H; repeat (destruct H as [H|H]); subst s; vm_compute; discriminate.
Qed.

(** C2, as stated, fails: a trimmed text of 45 characters that ends with
    ":" and avoids the three special cases still gets H3 when it starts with
    "phase ", and one of 44 characters gets H2 when it is bold and more than
    two points above the body size. *)
Lemma C2_colon_rule_counterexample :
  let t1 := "phase 2 deliverables for the pilot programme:" in
  let t2 := "Summary of the projected budget allocations:" in
  (PyStr.endswith (PyStr.strip t1) ":" = true /\
   PyStr.len (PyStr.strip t1) = 45 /\
   PyStr.startswith (PyStr.lower (PyStr.strip t1)) "for each" = false /\
   in_list (PyStr.lower (PyStr.strip t1)) ["timeline:"; "milestones:"] = false /\
   simple_heading_detection t1 11 false 11 = Some H3) /\
  (PyStr.endswith (PyStr.strip t2) ":" = true /\
   PyStr.len (PyStr.strip t2) = 44 /\
   PyStr.startswith (PyStr.lower (PyStr.strip t2)) "for each" = false /\
   in_list (PyStr.lower (PyStr.strip t2)) ["timeline:"; "milestones:"] = false /\
   simple_heading_detection t2 14 true 11 = Some H2).
Proof. vm_compute. repeat split. Qed.

(** C2, amended: for a line whose trimmed text ends with ":" and has 40 to
    49 characters, whose lowercased text does not start with "for each" and
    is neither "timeline:" nor "milestones:", and which none of the numbered
    and appendix patterns matches, the colon rule assigns no level and
    [simple_heading_detection] goes on to the later rules: the result is H3
    when the lowercased text starts with "phase ", else H2 when the line is
    bold with size > body size + 2, else none. *)
Theorem C2_colon_40_49_falls_through
    (text : string) (size : Q) (bold : bool) (body_size : Z) :
  let text_clean := PyStr.strip text in
  let text_lower := PyStr.lower text_clean in
  PyStr.endswith text_clean ":" = true ->
  40 <= PyStr.len text_clean <= 49 ->
  PyStr.startswith text_lower "for each" = false ->
  in_list text_lower ["timeline:"; "milestones:"] = false ->
  re_match SUB_SUB_NUMBERED_PATTERN text_clean = false ->
  re_match SUB_NUMBERED_PATTERN text_clean = false ->
  re_match NUMBERED_PATTERN text_clean = false ->
  re_match APPENDIX_PATTERN text_clean = false ->
  simple_heading_detection text size bold body_size =
    if PyStr.startswith text_lower "phase " then Some H3
    else if bold && Qlt_bool (inject_Z (body_size + 2)) size then Some H2
    else None.
Proof.
  intros text_clean text_lower Hend Hlen Hfor Hin H3n H2n H1n Happ.
  unfold simple_heading_detection.
  rewrite PyStrFacts.text_lower_eq.
  fold text_clean. fold text_lower.
  rewrite H3n, H2n, H1n, Happ, Hend, Hfor, Hin.
  rewrite bool_decide_eq_false_2.
  2:{ intros Hk%known_headings_short. subst text_lower.
      rewrite PyStrFacts.len_lower in Hk. lia. }
  replace (PyStr.len text_clean <? 50) with true by (symmetry; apply Z.ltb_lt; lia).
  replace (PyStr.len text_clean <? 40) with false by (symmetry; apply Z.ltb_ge; lia).
  replace (PyStr.len text_clean <=? 30) with false by (symmetry; apply Z.leb_gt; lia).
  simpl. rewrite !andb_false_r. reflexivity.
Qed.

Lemma C2_colon_40_49_falls_through_witness :
  simple_heading_detection
    "phase 2 deliverables for the pilot programme:" 11 false 11 = Some H3.
Proof.
  apply (C2_colon_40_49_falls_through
           "phase 2 deliverables for the pilot programme:" 11 false 11);
    try (vm_compute; reflexivity).
  vm_compute. split; discriminate.
Defined.

(** ** Form documents *)

Lemma detect_form_document_nil : detect_form_document [] = false.
Proof. vm_compute. reflexivity. Qed.

(** C3: when [detect_form_document] returns true on the lines of a
    document, the outline produced is empty, whatever headings the lines
    would otherwise give, and the title is the one
    [simple_title_extraction] computes from the lines of page 1. *)
Theorem C3_form_document_has_empty_outline (stem : string) (lines : list Line) :
  detect_form_document lines = true ->
  outline (process_pdf_simple stem lines) = [] /\
  title (process_pdf_simple stem lines)
    = simple_title_extraction (first_page lines) stem.
Proof.
  intros Hform. unfold process_pdf_simple.
  destruct lines as [|l ls].
  - rewrite detect_form_document_nil in Hform. discriminate.
  - rewrite Hform. split; reflexivity.
Qed.

Lemma C3_form_document_witness :
  detect_form_document form_doc = true /\
  length (find_headings (get_body_size form_doc) form_doc) = 4%nat /\
  outline (process_pdf_simple "form" form_doc) = [] /\
  title (process_pdf_simple "form" form_doc)
    = "Application form for grant of LTC advance".
Proof.
  assert (Hform : detect_form_document form_doc = true)
    by (vm_compute; reflexivity).
  destruct (C3_form_document_has_empty_outline "form" form_doc Hform)
    as [Hout Htitle].
  split; [exact Hform|]. split; [vm_compute; reflexivity|].
  split; [exact Hout|]. rewrite Htitle. vm_compute. reflexivity.
Defined.

(** ** Sorting *)

Section PySortSorted.
Context {A : Type} (lt : A -> A -> bool).

Hypothesis lt_asym : forall a b, lt a b = true -> lt b a = false.
Hypothesis may_precede_trans :
  forall a b c, may_precede lt a b -> may_precede lt b c -> may_precede lt a c.

Lemma sort_insert_sorted x l :
  StronglySorted (may_precede lt) l ->
  StronglySorted (may_precede lt) (sort_insert lt x l).
Proof.
  induction 1 as [|y ys Hys IH Hy]; simpl.
  - repeat constructor.
  - destruct (lt y x) eqn:E.
    + constructor; [exact IH|].
      rewrite Forall_forall. intros z Hz.
      rewrite sort_insert_perm in Hz.
      apply elem_of_cons in Hz as [->|Hz].
      * apply lt_asym, E.
      * rewrite Forall_forall in Hy. apply Hy, Hz.
    + constructor; [constructor; assumption|].
      constructor; [exact E|].
      rewrite Forall_forall in Hy |- *. intros z Hz.
      apply (may_precede_trans x y z); [exact E | apply Hy, Hz].
Qed.

Lemma py_sort_sorted l : StronglySorted (may_precede lt) (py_sort lt l).
Proof.
  induction l as [|x xs IH]; simpl; [constructor|].
  apply sort_insert_sorted, IH.
Qed.
End PySortSorted.

Section SortedLists.
Context {A : Type} (R : relation A).

Lemma StronglySorted_sublist l k :
  l `sublist_of` k -> StronglySorted R k -> StronglySorted R l.
Proof.
  induction 1 as [|x l k Hs IH|x l k Hs IH]; intros Hk.
  - constructor.
  - apply StronglySorted_cons in Hk as [Hx Hk].
    constructor; [apply IH, Hk|].
    rewrite Forall_forall in Hx |- *. intros y Hy.
    apply Hx. eapply elem_of_sublist; eassumption.
  - apply StronglySorted_cons in Hk as [_ Hk]. apply IH, Hk.
Qed.

Lemma StronglySorted_lookup l i j a b :
  StronglySorted R l ->
  l !! i = Some a -> l !! j = Some b -> (i < j)%nat -> R a b.
Proof.
  intros Hl. revert i j.
  induction Hl as [|x l Hl IH Hx]; intros i j Hi Hj Hlt.
  - discriminate.
  - destruct j as [|j]; [lia|]. simpl in Hj.
    destruct i as [|i]; simpl in Hi.
    + injection Hi as ->. rewrite Forall_forall in Hx.
      apply Hx. eapply list_elem_of_lookup_2, Hj.
    + apply (IH i j); [assumption..|lia].
Qed.
End SortedLists.

(** The order of the sort keys [(page, text)]. *)

Lemma string_ltb_false a b : PyStr.ltb b a = false <-> String.le a b.
Proof.
  unfold PyStr.ltb, String.ltb, String.le, String.leb.
  rewrite (String.compare_antisym a b).
  destruct (String.compare b a); simpl; intuition (auto; discriminate).
Qed.

Lemma string_ltb_irrefl a : PyStr.ltb a a = false.
Proof. apply string_ltb_false. reflexivity. Qed.

Lemma key_lt_false (a b : Z * string) :
  key_lt b a = false <-> a.1 < b.1 \/ (a.1 = b.1 /\ String.le a.2 b.2).
Proof.
  unfold key_lt. destruct (Z.eqb_spec b.1 a.1) as [E|E].
  - rewrite string_ltb_false. intuition lia.
  - rewrite Z.ltb_ge. intuition lia.
Qed.

Lemma key_lt_asym (a b : Z * string) : key_lt a b = true -> key_lt b a = false.
Proof.
  intros H. apply key_lt_false. unfold key_lt in H.
  destruct (Z.eqb_spec a.1 b.1) as [E|E].
  - right. split; [exact E|].
    destruct (total String.le a.2 b.2) as [Hle|Hle]; [exact Hle|].
    apply string_ltb_false in Hle. congruence.
  - left. apply Z.ltb_lt, H.
Qed.

Lemma key_le_trans (a b c : Z * string) :
  key_lt b a = false -> key_lt c b = false -> key_lt c a = false.
Proof.
  rewrite !key_lt_false. intros [H1|[H1 H1']] [H2|[H2 H2']]; try (left; lia).
  right. split; [lia|]. etrans; eassumption.
Qed.

Lemma sort_headings_sorted hs :
  StronglySorted
    (fun a b => key_lt (sort_key b) (sort_key a) = false) (sort_headings hs).
Proof.
  apply (py_sort_sorted (fun a b => key_lt (sort_key a) (sort_key b))).
  - intros a b. apply key_lt_asym.
  - intros a b c. unfold may_precede. apply key_le_trans.
Qed.

(** C5: in the outline of any document, an entry on an earlier page stands
    before an entry on a later page, and of two entries on the same page the
    one with the lexicographically smaller text stands first, whatever
    their levels. *)
Theorem C5_outline_sorted_by_page_then_text
    (stem : string) (lines : list Line) (i j : nat) (a b : Heading) :
  outline (process_pdf_simple stem lines) !! i = Some a ->
  outline (process_pdf_simple stem lines) !! j = Some b ->
  hpage a < hpage b \/
    (hpage a = hpage b /\ PyStr.ltb (htext a) (htext b) = true) ->
  (i < j)%nat.
Proof.
  intros Hi Hj Hab.
  assert (Hlt : key_lt (sort_key a) (sort_key b) = true).
  { unfold key_lt, sort_key; simpl. destruct Hab as [H|[H H']].
    - destruct (Z.eqb_spec (hpage a) (hpage b)); [lia|]. now apply Z.ltb_lt.
    - rewrite H, Z.eqb_refl. exact H'. }
  pose proof (StronglySorted_sublist _ _ _ (outline_sublist stem lines)
                (sort_headings_sorted _)) as Hs.
  destruct (Nat.lt_trichotomy i j) as [Hij|[Hij|Hij]]; [exact Hij|exfalso..].
  - subst j. rewrite Hi in Hj. injection Hj as <-.
    unfold key_lt in Hlt. rewrite Z.eqb_refl, string_ltb_irrefl in Hlt.
    discriminate.
  - pose proof (StronglySorted_lookup _ _ _ _ _ _ Hs Hj Hi Hij) as Hba.
    simpl in Hba. congruence.
Qed.

Lemma C5_outline_sorted_witness :
  outline (process_pdf_simple "doc" levels_doc)
    = [ mkHeading H3 "Milestones: " 1; mkHeading H1 "SUMMARY " 1;
        mkHeading H2 "2.1 Scope " 2 ] /\
  (0 < 1)%nat /\ (1 < 2)%nat.
Proof.
  assert (E : outline (process_pdf_simple "doc" levels_doc)
              = [ mkHeading H3 "Milestones: " 1; mkHeading H1 "SUMMARY " 1;
                  mkHeading H2 "2.1 Scope " 2 ])
    by (vm_compute; reflexivity).
  split; [exact E|]. split.
  - apply (C5_outline_sorted_by_page_then_text "doc" levels_doc 0 1
             (mkHeading H3 "Milestones: " 1) (mkHeading H1 "SUMMARY " 1)).
    + now rewrite E.
    + now rewrite E.
    + right. split; [reflexivity | vm_compute; reflexivity].
  - apply (C5_outline_sorted_by_page_then_text "doc" levels_doc 1 2
             (mkHeading H1 "SUMMARY " 1) (mkHeading H2 "2.1 Scope " 2)).
    + now rewrite E.
    + now rewrite E.
    + left. reflexivity.
Defined.

(** ** Deduplication *)

Section Dedup.
Implicit Types (seen : gset (Level * string * Z)) (hs : list Heading).

Lemma dedup_from_fresh seen hs h :
  h ∈ dedup_from seen hs -> dedup_key h ∉ seen.
Proof.
  revert seen. induction hs as [|x hs IH]; intros seen; simpl.
  - intros H. now apply elem_of_nil in H.
  - destruct (bool_decide_reflect (dedup_key x ∈ seen)) as [Hx|Hx].
    + apply IH.
    + intros [->|Hin]%elem_of_cons; [exact Hx|].
      apply IH in Hin. intros Hs. apply Hin. now apply elem_of_union_r.
Qed.

Lemma dedup_from_NoDup seen hs : NoDup (dedup_key <$> dedup_from seen hs).
Proof.
  revert seen. induction hs as [|x hs IH]; intros seen; simpl.
  - constructor.
  - destruct (bool_decide (dedup_key x ∈ seen)); [apply IH|].
    rewrite fmap_cons. constructor; [|apply IH].
    intros (y & Hy & Hin)%list_elem_of_fmap.
    apply dedup_from_fresh in Hin. apply Hin.
    rewrite Hy. apply elem_of_union_l, elem_of_singleton. reflexivity.
Qed.

(** The entries of the result that carry a key [k]: none when [k] was seen
    before, else the first heading of the input that carries [k]. *)
Lemma dedup_from_key seen hs k :
  filter (fun h => dedup_key h = k) (dedup_from seen hs) =
    if decide (k ∈ seen) then []
    else option_list (head (filter (fun h => dedup_key h = k) hs)).
Proof.
  revert seen. induction hs as [|x hs IH]; intros seen; simpl.
  - now destruct (decide _).
  - destruct (bool_decide_reflect (dedup_key x ∈ seen)) as [Hx|Hx].
    + rewrite IH. destruct (decide (k ∈ seen)) as [Hk|Hk]; [reflexivity|].
      rewrite (filter_cons_False _ x); [reflexivity|]. congruence.
    + destruct (decide (dedup_key x = k)) as [E|E].
      * rewrite !(filter_cons_True _ x) by exact E. rewrite IH.
        rewrite decide_True
          by (apply elem_of_union_l, elem_of_singleton; now symmetry).
        subst k. now rewrite decide_False by exact Hx.
      * rewrite !(filter_cons_False _ x) by exact E. rewrite IH.
        destruct (decide (k ∈ seen)) as [Hk|Hk].
        -- now rewrite decide_True by (now apply elem_of_union_r).
        -- rewrite decide_False; [reflexivity|].
           intros [Hk'%elem_of_singleton|Hk']%elem_of_union;
             [congruence | contradiction].
Qed.
End Dedup.

Lemma outline_not_form stem lines :
  detect_form_document lines = false ->
  outline (process_pdf_simple stem lines)
    = dedup_from ∅ (sort_headings (find_headings (get_body_size lines) lines)).
Proof.
  intros Hform. unfold process_pdf_simple. destruct lines as [|l ls].
  - reflexivity.
  - rewrite Hform. simpl outline. now rewrite dedup_loop_from.
Qed.

(** C6: no two entries of an outline share their triple (level, trimmed
    text, page); and when the document is not a form, of the classified
    headings that share a triple exactly one is in the outline, the first
    of them in the sorted sequence. *)
Theorem C6_outline_has_no_duplicates (stem : string) (lines : list Line) :
  let out := outline (process_pdf_simple stem lines) in
  let sorted := sort_headings (find_headings (get_body_size lines) lines) in
  NoDup (dedup_key <$> out) /\
  (forall i j a b,
     out !! i = Some a -> out !! j = Some b ->
     dedup_key a = dedup_key b -> i = j) /\
  (detect_form_document lines = false ->
   forall k h,
     head (filter (fun x => dedup_key x = k) sorted) = Some h ->
     filter (fun x => dedup_key x = k) out = [h]).
Proof.
  intros out sorted.
  assert (Hnd : NoDup (dedup_key <$> out)).
  { subst out. unfold process_pdf_simple. destruct lines as [|l ls];
      [constructor|].
    destruct (detect_form_document _); simpl outline; [constructor|].
    rewrite dedup_loop_from. apply dedup_from_NoDup. }
  split; [exact Hnd|]. split.
  - intros i j a b Hi Hj Hk.
    apply (NoDup_lookup _ i j (dedup_key a) Hnd);
      rewrite list_lookup_fmap; [now rewrite Hi | now rewrite Hj, Hk].
  - intros Hform k h Hhead. subst out sorted.
    rewrite (outline_not_form _ _ Hform), dedup_from_key.
    rewrite decide_False by apply not_elem_of_empty. now rewrite Hhead.
Qed.

Lemma C6_outline_has_no_duplicates_witness :
  detect_form_document twice_doc = false /\
  sort_headings (find_headings (get_body_size twice_doc) twice_doc)
    = [ mkHeading H1 "1 Introduction " 1; mkHeading H1 "1 Introduction " 1;
        mkHeading H3 "Timeline: " 2 ] /\
  filter (fun x => dedup_key x = (H1, "1 Introduction", 1))
         (outline (process_pdf_simple "doc" twice_doc))
    = [ mkHeading H1 "1 Introduction " 1 ].
Proof.
  assert (Hform : detect_form_document twice_doc = false)
    by (vm_compute; reflexivity).
  split; [exact Hform|]. split; [vm_compute; reflexivity|].
  apply (proj2 (proj2 (C6_outline_has_no_duplicates "doc" twice_doc)) Hform).
  vm_compute. reflexivity.
Defined.

(** The deduplication loop on headings that differ in white space only:
    the first one is kept. *)
Example dedup_loop_padding :
  dedup_loop ∅ [] [ mkHeading H1 "Scope " 1; mkHeading H1 " Scope" 1;
                    mkHeading H2 "Scope " 1; mkHeading H1 "Scope " 2 ]
  = [ mkHeading H1 "Scope " 1; mkHeading H2 "Scope " 1; mkHeading H1 "Scope " 2 ].
Proof. vm_compute. reflexivity. Qed.

(** ** Lines the gate rejects *)

(** C4: a line of the document for which [is_likely_heading] returns false
    gives no heading, whatever [simple_heading_detection] returns for it:
    the headings found are those of the other lines, and every entry of the
    outline stems from one of the other lines, one that passed the gate. *)
Theorem C4_rejected_line_gives_no_entry
    (stem : string) (l1 : list Line) (line : Line) (l2 : list Line) :
  let lines := l1 ++ line :: l2 in
  let body_size := get_body_size lines in
  is_likely_heading (text line) (size line) (bold line) body_size = false ->
  heading_of body_size line = None /\
  find_headings body_size lines = find_headings body_size (l1 ++ l2) /\
  forall h, h ∈ outline (process_pdf_simple stem lines) ->
    exists line', line' ∈ l1 ++ l2 /\
      is_likely_heading (text line') (size line') (bold line') body_size = true /\
      simple_heading_detection (text line') (size line') (bold line') body_size
        = Some (level h) /\
      htext h = PyStr.strip (text line') +:+ " " /\
      hpage h = page line'.
Proof.
  intros lines body_size Hgate.
  assert (Hnone : heading_of body_size line = None).
  { unfold heading_of. now rewrite Hgate. }
  split; [exact Hnone|]. split.
  - rewrite !find_headings_omap. subst lines.
    rewrite !omap_app. simpl. now rewrite Hnone.
  - intros h Hin.
    destruct (outline_origin _ _ _ Hin) as (line' & Hl' & Hh).
    fold body_size in Hh. exists line'. split.
    + subst lines. rewrite elem_of_app in Hl' |- *.
      destruct Hl' as [Hl'|Hl']; [now left|].
      apply elem_of_cons in Hl' as [->|Hl']; [congruence | now right].
    + now apply heading_of_Some.
Qed.

Lemma C4_rejected_line_witness :
  simple_heading_detection "1. Introduction" 14 true 11 = Some H1 /\
  find_headings 11 methods_doc = [mkHeading H1 "2 Methods " 1] /\
  outline (process_pdf_simple "doc" methods_doc) = [mkHeading H1 "2 Methods " 1].
Proof.
  assert (Hgate : is_likely_heading "1. Introduction" 14 true
                    (get_body_size methods_doc) = false)
    by (vm_compute; reflexivity).
  destruct (C4_rejected_line_gives_no_entry "doc" []
              (line_at "1. Introduction" 14 true 1) (tail methods_doc) Hgate)
    as (_ & Hfind & _).
  split; [vm_compute; reflexivity|]. split.
  - etrans; [exact Hfind | vm_compute; reflexivity].
  - vm_compute. reflexivity.
Defined.

(** ** The float addition of the title score *)

Lemma two_neq_0 : ~ (2 == 0)%Q.
Proof. discriminate. Qed.

Lemma Qpow2_pos (z : Z) : (0 < 2 ^ z)%Q.
Proof. apply Qpower_0_lt. reflexivity. Qed.

Lemma Qpow2_inject (z : Z) : 0 <= z -> (inject_Z (2 ^ z) == 2 ^ z)%Q.
Proof. intros Hz. now rewrite Zpower_Qpower. Qed.

(** [binade a] is the exponent of the binade of [a]. *)
Lemma binade_spec (a : Q) :
  (0 < a)%Q -> (2 ^ binade a <= a)%Q /\ (a < 2 ^ (binade a + 1))%Q.
Proof.
  destruct a as [n d]. intros Ha.
  assert (Hn : 0 < n) by (unfold Qlt in Ha; simpl in Ha; lia).
  unfold binade. cbn [Qnum Qden].
  set (ln := Z.log2 n). set (ld := Z.log2 (Z.pos d)).
  destruct (Z.log2_spec n Hn) as [Hn1 Hn2]. fold ln in Hn1, Hn2.
  destruct (Z.log2_spec (Z.pos d) eq_refl) as [Hd1 Hd2]. fold ld in Hd1, Hd2.
  assert (Hln : 0 <= ln) by apply Z.log2_nonneg.
  assert (Hld : 0 <= ld) by apply Z.log2_nonneg.
  assert (HD : (0 < inject_Z (Z.pos d))%Q) by reflexivity.
  assert (Qn1 : (2 ^ ln <= inject_Z n)%Q).
  { rewrite <- Qpow2_inject by exact Hln. now rewrite <- Zle_Qle. }
  assert (Qn2 : (inject_Z n < 2 ^ (ln + 1))%Q).
  { rewrite <- Qpow2_inject by lia. rewrite <- Zlt_Qlt.
    now rewrite <- Z.add_1_r in Hn2. }
  assert (Qd1 : (2 ^ ld <= inject_Z (Z.pos d))%Q).
  { rewrite <- Qpow2_inject by exact Hld. now rewrite <- Zle_Qle. }
  assert (Qd2 : (inject_Z (Z.pos d) < 2 ^ (ld + 1))%Q).
  { rewrite <- Qpow2_inject by lia. rewrite <- Zlt_Qlt.
    now rewrite <- Z.add_1_r in Hd2. }
  set (k := ln - ld).
  destruct (Qlt_bool (n # d) (2 ^ k)) eqn:E.
  - apply Qlt_bool_iff in E. split.
    + rewrite (Qmake_Qdiv n d). apply Qle_shift_div_l; [exact HD|].
      apply Qlt_le_weak.
      apply Qlt_le_trans with (2 ^ (k - 1) * 2 ^ (ld + 1))%Q.
      * apply Qmult_lt_l; [apply Qpow2_pos | exact Qd2].
      * rewrite <- Qpower_plus by apply two_neq_0.
        replace (k - 1 + (ld + 1)) with ln by (unfold k; lia). exact Qn1.
    + replace (k - 1 + 1) with k by lia. exact E.
  - apply Qlt_bool_false_iff in E. split; [exact E|].
    rewrite (Qmake_Qdiv n d). apply Qlt_shift_div_r; [exact HD|].
    apply Qlt_le_trans with (2 ^ (k + 1) * 2 ^ ld)%Q.
    + rewrite <- Qpower_plus by apply two_neq_0.
      replace (k + 1 + ld) with (ln + 1) by (unfold k; lia). exact Qn2.
    + apply Qmult_le_l; [apply Qpow2_pos | exact Qd1].
Qed.

Lemma py_round_comp (x y : Q) : (x == y)%Q -> py_round x = py_round y.
Proof.
  intros H. unfold py_round.
  rewrite (Qfloor_comp _ _ H).
  assert (E : (x - inject_Z (Qfloor y) ?= 1 # 2)%Q
              = (y - inject_Z (Qfloor y) ?= 1 # 2)%Q).
  { apply Qcompare_comp; [now rewrite H | reflexivity]. }
  now rewrite E.
Qed.

Lemma py_round_Z (z : Z) : py_round (inject_Z z) = z.
Proof.
  unfold py_round. rewrite Qfloor_Z.
  assert (E : (inject_Z z - inject_Z z ?= 1 # 2)%Q = Lt).
  { apply (proj1 (Qlt_alt _ _)). lra. }
  now rewrite E.
Qed.

(** Rounding leaves a double as it is. *)
Lemma round_binary64_exact (x : Q) : is_binary64 x -> (round_binary64 x == x)%Q.
Proof.
  intros (m & q0 & Hx & Hm & Hq).
  unfold round_binary64. destruct (Qeq_bool x 0) eqn:E0.
  { apply Qeq_bool_iff in E0. now rewrite E0. }
  apply Qeq_bool_neq in E0. cbv zeta.
  assert (Hm0 : m <> 0).
  { intros ->. apply E0. rewrite Hx. apply Qmult_0_l. }
  assert (Ha : (Qabs x == inject_Z (Z.abs m) * 2 ^ q0)%Q).
  { rewrite Hx, Qabs_Qmult. rewrite (Qabs_pos (2 ^ q0));
      [reflexivity | apply Qlt_le_weak, Qpow2_pos]. }
  assert (Hapos : (0 < Qabs x)%Q).
  { rewrite Ha. apply Qmult_lt_0_compat; [|apply Qpow2_pos].
    rewrite <- (Zlt_Qlt 0). lia. }
  destruct (binade_spec _ Hapos) as [He _].
  set (e := binade (Qabs x)) in *.
  assert (Hlt : e < 53 + q0).
  { apply (Qpower_lt_compat_l_inv 2); [|reflexivity].
    apply Qle_lt_trans with (Qabs x); [exact He|].
    rewrite Ha, Qpower_plus by apply two_neq_0.
    apply Qmult_lt_r; [apply Qpow2_pos|].
    rewrite <- Qpow2_inject by lia. now rewrite <- Zlt_Qlt. }
  set (q := Z.max (e - 52) (-1074)).
  assert (Hqq : q <= q0) by (unfold q; lia).
  assert (Hn : py_round (Qabs x / 2 ^ q) = Z.abs m * 2 ^ (q0 - q)).
  { rewrite <- py_round_Z. apply py_round_comp.
    rewrite Ha, inject_Z_mult, Qpow2_inject by lia.
    rewrite Qpower_minus by apply two_neq_0.
    unfold Qdiv. now rewrite Qmult_assoc. }
  rewrite Hn, inject_Z_mult, Qpow2_inject by lia.
  rewrite Qpower_minus by apply two_neq_0.
  assert (Hq2 : ~ (2 ^ q == 0)%Q).
  { intros H. pose proof (Qpow2_pos q) as Hp. rewrite H in Hp.
    now apply Qlt_irrefl in Hp. }
  destruct (Qlt_bool x 0) eqn:Es.
  - apply Qlt_bool_iff in Es.
    assert (Hneg : m < 0).
    { destruct (Z.lt_ge_cases m 0) as [H|H]; [exact H|]. exfalso.
      assert (Hnn : (0 <= x)%Q).
      { rewrite Hx. apply Qmult_le_0_compat; [|apply Qlt_le_weak, Qpow2_pos].
        now rewrite <- (Zle_Qle 0). }
      lra. }
    rewrite Z.abs_neq by lia. rewrite Hx, inject_Z_opp. field. exact Hq2.
  - apply Qlt_bool_false_iff in Es.
    assert (Hpos : 0 <= m).
    { destruct (Z.lt_ge_cases m 0) as [H|H]; [|exact H]. exfalso.
      assert (Hnn : (x < 0)%Q).
      { rewrite Hx.
        assert (Hm' : (inject_Z m * 2 ^ q0 < 0 * 2 ^ q0)%Q).
        { apply Qmult_lt_r; [apply Qpow2_pos|]. change (inject_Z m < inject_Z 0)%Q. now rewrite <- Zlt_Qlt. }
        now rewrite Qmult_0_l in Hm'. }
      lra. }
    rewrite Z.abs_eq by lia. rewrite Hx. field. exact Hq2.
Qed.

(** [round] gives an integer nearest to its argument. *)
Lemma py_round_nearest (t : Q) (k : Z) :
  (Qabs (inject_Z (py_round t) - t) <= Qabs (inject_Z k - t))%Q.
Proof.
  unfold py_round. set (f := Qfloor t).
  pose proof (Qfloor_le t) as Hf1. pose proof (Qlt_floor t) as Hf2.
  fold f in Hf1, Hf2. rewrite inject_Z_plus in Hf2.
  change (inject_Z 1) with 1%Q in Hf2.
  assert (Hk : (inject_Z k <= inject_Z f)%Q \/ (inject_Z f + 1 <= inject_Z k)%Q).
  { destruct (Z.le_gt_cases k f) as [H|H].
    - left. now rewrite <- Zle_Qle.
    - right. change 1%Q with (inject_Z 1).
      rewrite <- inject_Z_plus, <- Zle_Qle. lia. }
  pose proof (Qle_Qabs (inject_Z k - t)) as B1.
  pose proof (Qle_Qabs (- (inject_Z k - t))) as B2.
  rewrite Qabs_opp in B2.
  set (A := Qabs (inject_Z k - t)) in *.
  destruct (Qcompare_spec (t - inject_Z f) (1 # 2)) as [E|E|E];
    [destruct (Z.even f)| |];
    rewrite ?inject_Z_plus; change (inject_Z 1) with 1%Q;
    apply Qabs_Qle_condition; destruct Hk; split; lra.
Qed.

(** Hence [py_round (a / 2^q) * 2^q] is a multiple of [2^q] nearest to [a]. *)
Lemma nearest_multiple (a : Q) (q K : Z) :
  (Qabs (inject_Z (py_round (a / 2 ^ q)) * 2 ^ q - a)
   <= Qabs (inject_Z K * 2 ^ q - a))%Q.
Proof.
  assert (Hq2 : ~ (2 ^ q == 0)%Q).
  { intros H. pose proof (Qpow2_pos q) as Hp. rewrite H in Hp.
    now apply Qlt_irrefl in Hp. }
  assert (E : forall X : Q, (X * 2 ^ q - a == (X - a / 2 ^ q) * 2 ^ q)%Q).
  { intros X. field. exact Hq2. }
  rewrite !E, !Qabs_Qmult.
  apply Qmult_le_compat_r; [apply py_round_nearest | apply Qabs_nonneg].
Qed.

Lemma Qabs_abs_diff (x y : Q) : (Qabs (Qabs y - Qabs x) <= Qabs (y - x))%Q.
Proof.
  pose proof (Qabs_triangle_reverse y x) as H1.
  pose proof (Qabs_triangle_reverse x y) as H2.
  rewrite (Qabs_Qminus x y) in H2.
  apply Qabs_Qle_condition. split; lra.
Qed.

(** Among the positive numbers: no [M * 2^q0] with [M < 2^53] and
    [-1074 <= q0] is nearer to [a] than the rounded [a]. *)
Lemma round_pos_nearest (a : Q) (M q0 : Z) :
  (0 < a)%Q -> 0 <= M < 2 ^ 53 -> -1074 <= q0 ->
  let q := Z.max (binade a - 52) (-1074) in
  (Qabs (inject_Z (py_round (a / 2 ^ q)) * 2 ^ q - a)
   <= Qabs (inject_Z M * 2 ^ q0 - a))%Q.
Proof.
  intros Ha HM Hq0 q.
  destruct (binade_spec a Ha) as [He _].
  set (e := binade a) in *.
  destruct (Z.le_gt_cases q q0) as [Hle|Hgt].
  - assert (E : (inject_Z M * 2 ^ q0 == inject_Z (M * 2 ^ (q0 - q)) * 2 ^ q)%Q).
    { rewrite inject_Z_mult, Qpow2_inject by lia.
      rewrite <- Qmult_assoc, <- Qpower_plus by apply two_neq_0.
      now replace (q0 - q + q) with q0 by lia. }
    rewrite E. apply nearest_multiple.
  - assert (Hq : q = e - 52) by (unfold q in *; lia).
    assert (Hy : (inject_Z M * 2 ^ q0 < 2 ^ e)%Q).
    { apply Qlt_le_trans with (2 ^ 53 * 2 ^ q0)%Q.
      - apply Qmult_lt_r; [apply Qpow2_pos|].
        rewrite <- Qpow2_inject by lia. rewrite <- Zlt_Qlt. lia.
      - rewrite <- Qpower_plus by apply two_neq_0.
        apply Qpower_le_compat_l; [lia | discriminate]. }
    assert (E : (2 ^ e == inject_Z (2 ^ 52) * 2 ^ q)%Q).
    { rewrite Qpow2_inject by lia.
      rewrite <- Qpower_plus by apply two_neq_0.
      now replace (52 + q) with e by lia. }
    pose proof (nearest_multiple a q (2 ^ 52)) as Hn.
    rewrite <- E in Hn.
    apply Qle_trans with (1 := Hn).
    pose proof (Qle_Qabs (- (inject_Z M * 2 ^ q0 - a))) as B.
    rewrite Qabs_opp in B.
    apply Qabs_Qle_condition. split; lra.
Qed.

(** The float nearest to [x]: no double is nearer to [x] than
    [round_binary64 x]. *)
Lemma round_binary64_nearest (x y : Q) :
  is_binary64 y -> (Qabs (round_binary64 x - x) <= Qabs (y - x))%Q.
Proof.
  intros (m & q0 & Hy & Hm & Hq).
  unfold round_binary64. destruct (Qeq_bool x 0) eqn:E0.
  { apply Qeq_bool_iff in E0.
    assert (E : (0 - x == 0)%Q) by (rewrite E0; reflexivity).
    rewrite E. apply Qabs_nonneg. }
  apply Qeq_bool_neq in E0. cbv zeta.
  assert (Hapos : (0 < Qabs x)%Q).
  { destruct (Q_dec x 0) as [[H|H]|H]; [| |contradiction].
    - rewrite Qabs_neg by lra. lra.
    - rewrite Qabs_pos by lra. exact H. }
  assert (Hay : (Qabs y == inject_Z (Z.abs m) * 2 ^ q0)%Q).
  { rewrite Hy, Qabs_Qmult. rewrite (Qabs_pos (2 ^ q0));
      [reflexivity | apply Qlt_le_weak, Qpow2_pos]. }
  pose proof (round_pos_nearest (Qabs x) (Z.abs m) q0 Hapos
                ltac:(lia) ltac:(lia)) as Hn.
  cbv zeta in Hn. rewrite <- Hay in Hn.
  set (r := (inject_Z (py_round (Qabs x / 2 ^ Z.max (binade (Qabs x) - 52) (-1074)))
             * 2 ^ Z.max (binade (Qabs x) - 52) (-1074))%Q) in *.
  apply Qle_trans with (Qabs (Qabs y - Qabs x)); [|apply Qabs_abs_diff].
  apply Qle_trans with (2 := Hn).
  apply Qle_lteq. right.
  destruct (Qlt_bool x 0) eqn:Es.
  - apply Qlt_bool_iff in Es.
    assert (E : (-1 * r - x == - (r - Qabs x))%Q).
    { rewrite Qabs_neg by lra. ring. }
    rewrite E. apply Qabs_opp.
  - apply Qlt_bool_false_iff in Es.
    assert (E : (1 * r - x == r - Qabs x)%Q).
    { rewrite Qabs_pos by lra. ring. }
    now rewrite E.
Qed.

Lemma py_round_below (t : Q) (K : Z) :
  (t < inject_Z K + (1 # 2))%Q -> py_round t <= K.
Proof.
  intros Ht. unfold py_round. set (f := Qfloor t).
  pose proof (Qfloor_le t) as Hf1. fold f in Hf1.
  destruct (Z.le_gt_cases f (K - 1)) as [H|H].
  { destruct (_ ?= _)%Q; [destruct (Z.even f)| |]; lia. }
  assert (HfK : f = K).
  { assert (Hlt : f < K + 1).
    { rewrite Zlt_Qlt, inject_Z_plus. change (inject_Z 1) with 1%Q. lra. }
    lia. }
  assert (E : (t - inject_Z f ?= 1 # 2)%Q = Lt).
  { apply (proj1 (Qlt_alt _ _)). rewrite HfK. lra. }
  rewrite E. lia.
Qed.

Lemma py_round_nonneg (t : Q) : (0 <= t)%Q -> 0 <= py_round t.
Proof.
  intros Ht. unfold py_round.
  assert (Hf : 0 <= Qfloor t).
  { change 0 with (Qfloor 0). now apply Qfloor_resp_le. }
  destruct (_ ?= _)%Q; [destruct (Z.even _)| |]; lia.
Qed.

Lemma is_binary64_comp (x y : Q) : (x == y)%Q -> is_binary64 x -> is_binary64 y.
Proof.
  intros E (m & q & H & Hm & Hq). exists m, q. now rewrite <- E.
Qed.

Lemma is_binary64_opp (x : Q) : is_binary64 x -> is_binary64 (- x).
Proof.
  intros (m & q & H & Hm & Hq). exists (- m), q.
  split; [|split; [lia | exact Hq]].
  rewrite H, inject_Z_opp. ring.
Qed.

(** Below the overflow threshold, half an ulp above the greatest double,
    the rounded number is a double. *)
Lemma round_binary64_is_binary64 (x : Q) :
  (Qabs x < inject_Z (2 ^ 54 - 1) * 2 ^ 970)%Q -> is_binary64 (round_binary64 x).
Proof.
  intros Hx. unfold round_binary64. destruct (Qeq_bool x 0) eqn:E0.
  { exists 0, 0. split; [reflexivity | lia]. }
  apply Qeq_bool_neq in E0. cbv zeta.
  assert (Hapos : (0 < Qabs x)%Q).
  { destruct (Q_dec x 0) as [[H|H]|H]; [| |contradiction].
    - rewrite Qabs_neg by lra. lra.
    - rewrite Qabs_pos by lra. exact H. }
  destruct (binade_spec _ Hapos) as [He1 He2].
  set (a := Qabs x) in *. set (e := binade a) in *.
  set (q := Z.max (e - 52) (-1074)).
  assert (He : e <= 1023).
  { assert (e < 1024); [|lia].
    apply (Qpower_lt_compat_l_inv 2); [|reflexivity].
    apply Qle_lt_trans with (1 := He1). apply Qlt_trans with (1 := Hx).
    replace 1024 with (54 + 970) by lia.
    rewrite Qpower_plus by apply two_neq_0.
    apply Qmult_lt_r; [apply Qpow2_pos | reflexivity]. }
  set (n := py_round (a / 2 ^ q)).
  assert (Hn0 : 0 <= n).
  { apply py_round_nonneg. apply Qle_shift_div_l; [apply Qpow2_pos|]. lra. }
  assert (Hn1 : n <= 2 ^ 53).
  { apply py_round_below.
    apply Qlt_le_trans with (inject_Z (2 ^ 53)); [|lra].
    apply Qlt_shift_div_r; [apply Qpow2_pos|].
    apply Qlt_le_trans with (1 := He2).
    rewrite Qpow2_inject by lia.
    rewrite <- Qpower_plus by apply two_neq_0.
    apply Qpower_le_compat_l; [unfold q; lia | discriminate]. }
  assert (Hn2 : q = 971 -> n <= 2 ^ 53 - 1).
  { intros Hq. apply py_round_below.
    apply Qlt_shift_div_r; [apply Qpow2_pos|].
    apply Qlt_le_trans with (1 := Hx). rewrite Hq.
    replace 971 with (1 + 970) by lia.
    rewrite Qpower_plus by apply two_neq_0.
    rewrite Qmult_assoc. apply Qmult_le_compat_r;
      [apply Qle_lteq; right; reflexivity | apply Qlt_le_weak, Qpow2_pos]. }
  assert (Hpos : is_binary64 (inject_Z n * 2 ^ q)).
  { destruct (Z.eq_dec n (2 ^ 53)) as [En|En].
    - exists (2 ^ 52), (q + 1). split; [|split; [lia | unfold q in *; lia]].
      rewrite En, (Qpower_plus 2 q 1) by apply two_neq_0.
      change (2 ^ 1)%Q with 2%Q.
      rewrite (Qmult_comm (2 ^ q) 2), Qmult_assoc.
      apply Qmult_comp; reflexivity.
    - exists n, q. split; [reflexivity|]. split; [lia | unfold q; lia]. }
  destruct (Qlt_bool x 0).
  - apply (is_binary64_comp (- (inject_Z n * 2 ^ q))); [ring|].
    now apply is_binary64_opp.
  - apply (is_binary64_comp (inject_Z n * 2 ^ q)); [ring | exact Hpos].
Qed.

(** A double is at most the greatest double in absolute value. *)
Lemma is_binary64_bound (x : Q) :
  is_binary64 x -> (Qabs x <= inject_Z (2 ^ 53 - 1) * 2 ^ 971)%Q.
Proof.
  intros (m & q & H & Hm & Hq).
  rewrite H, Qabs_Qmult. rewrite (Qabs_pos (2 ^ q))
    by apply Qlt_le_weak, Qpow2_pos.
  assert (Hm' : (Qabs (inject_Z m) <= inject_Z (2 ^ 53 - 1))%Q).
  { apply Qabs_Qle_condition. rewrite <- inject_Z_opp, <- !Zle_Qle. lia. }
  apply Qle_trans with (inject_Z (2 ^ 53 - 1) * 2 ^ q)%Q.
  - apply Qmult_le_compat_r; [exact Hm' | apply Qlt_le_weak, Qpow2_pos].
  - apply Qmult_le_l; [reflexivity|].
    apply Qpower_le_compat_l; [lia | discriminate].
Qed.

(** Halfway between two integers [round] takes the even one. *)
Lemma py_round_half_even (t : Q) :
  (t - inject_Z (Qfloor t) == 1 # 2)%Q -> Z.even (py_round t) = true.
Proof.
  intros H. unfold py_round.
  rewrite (proj1 (Qeq_alt _ _) H).
  destruct (Z.even (Qfloor t)) eqn:E; [exact E|].
  rewrite Z.even_add, E. reflexivity.
Qed.

(** Halfway between two neighbouring doubles the sum is rounded to the one
    of even significand. *)
Lemma round_binary64_tie_even (x : Q) :
  let q := Z.max (binade (Qabs x) - 52) (-1074) in
  let t := (Qabs x / 2 ^ q)%Q in
  (t - inject_Z (Qfloor t) == 1 # 2)%Q ->
  exists n : Z,
    Z.even n = true /\ (Qabs (round_binary64 x) == inject_Z n * 2 ^ q)%Q.
Proof.
  intros q t Ht. exists (py_round t). split; [now apply py_round_half_even|].
  unfold round_binary64. destruct (Qeq_bool x 0) eqn:E0.
  { exfalso. apply Qeq_bool_iff in E0.
    assert (E : (t == 0)%Q).
    { unfold t. rewrite E0. reflexivity. }
    rewrite (Qfloor_comp _ _ E) in Ht. rewrite E in Ht. discriminate Ht. }
  cbv zeta. fold q. fold t.
  assert (Hn : (0 <= inject_Z (py_round t) * 2 ^ q)%Q).
  { apply Qmult_le_0_compat; [|apply Qlt_le_weak, Qpow2_pos].
    change 0%Q with (inject_Z 0). rewrite <- Zle_Qle.
    apply py_round_nonneg. unfold t.
    apply Qle_shift_div_l; [apply Qpow2_pos|].
    rewrite Qmult_0_l. apply Qabs_nonneg. }
  rewrite Qabs_Qmult, (Qabs_pos _ Hn).
  destruct (Qlt_bool x 0); [change (Qabs (-1)) with 1%Q | change (Qabs 1) with 1%Q];
    ring.
Qed.

(** The float sums of the title score. *)
Lemma float_add_is_binary64 (a b : Q) :
  is_binary64 a -> (Qabs b <= 10)%Q -> is_binary64 (float_add a b).
Proof.
  intros Ha Hb. apply round_binary64_is_binary64.
  apply Qle_lt_trans with (1 := Qabs_triangle a b).
  pose proof (is_binary64_bound a Ha) as Hbound.
  assert (H970 : (16 <= 2 ^ 970)%Q).
  { change 16%Q with (2 ^ 4)%Q. apply Qpower_le_compat_l; [lia | discriminate]. }
  assert (E : (2 ^ 971 == 2 * 2 ^ 970)%Q).
  { replace 971 with (1 + 970) by lia.
    now rewrite Qpower_plus by apply two_neq_0. }
  rewrite E in Hbound.
  set (P := (2 ^ 970)%Q) in *.
  change (inject_Z (2 ^ 53 - 1)) with (9007199254740991 # 1)%Q in Hbound.
  change (inject_Z (2 ^ 54 - 1)) with (18014398509481983 # 1)%Q.
  lra.
Qed.

Lemma float_add_nearest (a b y : Q) :
  is_binary64 y -> (Qabs (float_add a b - (a + b)) <= Qabs (y - (a + b)))%Q.
Proof. apply round_binary64_nearest. Qed.

Lemma float_add_exact (a b : Q) :
  is_binary64 (a + b) -> (float_add a b == a + b)%Q.
Proof. apply round_binary64_exact. Qed.

(** ** Title extraction *)

(** The score of a line that is not bold is its size: [size + 0] is exact. *)
Lemma score_not_bold (line : Line) :
  bold line = false -> is_binary64 (size line) -> (score line == size line)%Q.
Proof.
  intros Hb Hs. unfold score. rewrite Hb.
  assert (E : (size line + 0 == size line)%Q) by ring.
  rewrite float_add_exact; [exact E|].
  apply (is_binary64_comp (size line)); [now symmetry | exact Hs].
Qed.

(** The score of a bold line is a double nearest to [size + 10]. *)
Lemma score_bold_nearest (line : Line) (y : Q) :
  bold line = true -> is_binary64 y ->
  (Qabs (score line - (size line + 10)) <= Qabs (y - (size line + 10)))%Q.
Proof.
  intros Hb Hy. unfold score. rewrite Hb. now apply float_add_nearest.
Qed.

(** The score of a line whose size is a double is a double. *)
Lemma score_is_binary64 (line : Line) :
  is_binary64 (size line) -> is_binary64 (score line).
Proof.
  intros Hs. unfold score. apply float_add_is_binary64; [exact Hs|].
  destruct (bold line); apply Qabs_Qle_condition; split; discriminate.
Qed.

Lemma elem_of_title_candidates c lines :
  c ∈ title_candidates lines <->
  exists line, line ∈ lines /\ is_title_candidate line /\
               c = (score line, text line).
Proof.
  unfold is_title_candidate.
  induction lines as [|l ls IH]; simpl.
  - split; [intros H; now apply elem_of_nil in H|].
    intros (line & H & _). now apply elem_of_nil in H.
  - destruct (Qlt_bool (y0 (bbox l)) 200 && (5 <=? PyStr.len (text l))) eqn:E.
    + apply andb_true_iff in E as [E1 E2].
      apply Qlt_bool_iff in E1. apply Z.leb_le in E2.
      rewrite elem_of_cons, IH. split.
      * intros [->|(line & Hin & Hq & ->)].
        -- exists l. split; [left|]; auto.
        -- exists line. split; [now right|]; auto.
      * intros (line & [->|Hin]%elem_of_cons & Hq & ->); [now left|].
        right. exists line. auto.
    + rewrite IH. split.
      * intros (line & Hin & Hq & ->). exists line. split; [now right|]; auto.
      * intros (line & [->|Hin]%elem_of_cons & [Hq1 Hq2] & ->).
        -- apply Qlt_bool_iff in Hq1. apply Z.leb_le in Hq2.
           rewrite Hq1, Hq2 in E. discriminate.
        -- exists line. auto.
Qed.

Lemma cand_lt_false (a b : Q * string) :
  cand_lt a b = false <->
  (b.1 < a.1)%Q \/ ((b.1 == a.1)%Q /\ String.le b.2 a.2).
Proof.
  unfold cand_lt. destruct (Qeq_bool a.1 b.1) eqn:E.
  - apply Qeq_bool_iff in E. rewrite string_ltb_false. split.
    + intros H. right. split; [now symmetry | exact H].
    + intros [H|[_ H]]; [lra | exact H].
  - apply Qeq_bool_neq in E. rewrite Qlt_bool_false_iff. split.
    + intros H. left. apply Qle_lteq in H as [H|H]; [exact H|].
      symmetry in H. contradiction.
    + intros [H|[H _]]; [lra|]. symmetry in H. contradiction.
Qed.

Lemma cand_lt_asym (a b : Q * string) : cand_lt b a = true -> cand_lt a b = false.
Proof.
  intros H. destruct (cand_lt a b) eqn:E; [exfalso | reflexivity].
  unfold cand_lt in H, E.
  destruct (Qeq_bool a.1 b.1) eqn:Eab, (Qeq_bool b.1 a.1) eqn:Eba.
  - unfold PyStr.ltb, String.ltb in H, E.
    rewrite String.compare_antisym in H.
    destruct (String.compare a.2 b.2); discriminate.
  - apply Qeq_bool_iff in Eab. apply Qeq_bool_neq in Eba.
    symmetry in Eab. contradiction.
  - apply Qeq_bool_iff in Eba. apply Qeq_bool_neq in Eab.
    symmetry in Eba. contradiction.
  - apply Qlt_bool_iff in H, E. lra.
Qed.

Lemma cand_ge_trans (a b c : Q * string) :
  cand_lt a b = false -> cand_lt b c = false -> cand_lt a c = false.
Proof.
  rewrite !cand_lt_false.
  intros [H1|[H1 H1']] [H2|[H2 H2']]; try (left; lra).
  right. split; [lra|]. etrans; eassumption.
Qed.

(** The first element of the candidates sorted in descending order is not
    below any candidate. *)
Lemma sorted_candidates_head cands c rest :
  py_sort (fun a b => cand_lt b a) cands = c :: rest ->
  c ∈ cands /\ forall x, x ∈ cands -> cand_lt c x = false.
Proof.
  intros Hs.
  pose proof (py_sort_perm (fun a b => cand_lt b a) cands) as Hp.
  pose proof (py_sort_sorted (fun a b => cand_lt b a)
                (fun a b => cand_lt_asym a b)
                (fun a b c => cand_ge_trans a b c) cands) as Hsorted.
  rewrite Hs in Hp, Hsorted.
  apply StronglySorted_cons in Hsorted as [Hc _].
  split.
  - rewrite <- Hp. left.
  - intros x Hx. rewrite <- Hp in Hx.
    apply elem_of_cons in Hx as [->|Hx].
    + apply cand_lt_false. right. split; reflexivity.
    + rewrite Forall_forall in Hc. apply Hc, Hx.
Qed.

(** C7: for a file name other than the sentinel "file05",
    [simple_title_extraction] returns the trimmed text of a candidate (a
    line with y0 < 200 and at least 5 characters) of greatest score, and
    among the candidates of that score the one with the lexicographically
    greatest text; when no line is a candidate it returns the fallback
    name.  The score is the float [size + 10] for a bold line, the double
    nearest to the exact sum, and the size itself otherwise. *)
Theorem C7_title_is_best_candidate (lines : list Line) (filename : string) :
  filename <> "file05" ->
  ((forall line, line ∈ lines -> ~ is_title_candidate line) ->
   simple_title_extraction lines filename = filename) /\
  ((exists line, line ∈ lines /\ is_title_candidate line) ->
   exists best, best ∈ lines /\ is_title_candidate best /\
     simple_title_extraction lines filename = PyStr.strip (text best) /\
     forall line, line ∈ lines -> is_title_candidate line ->
       (score line < score best)%Q \/
       ((score line == score best)%Q /\ String.le (text line) (text best))) /\
  (forall line : Line,
     (bold line = false -> is_binary64 (size line) ->
      (score line == size line)%Q) /\
     (bold line = true -> forall y : Q, is_binary64 y ->
      (Qabs (score line - (size line + 10)) <= Qabs (y - (size line + 10)))%Q)).
Proof.
  intros Hname.
  assert (Hscore : forall line : Line,
     (bold line = false -> is_binary64 (size line) ->
      (score line == size line)%Q) /\
     (bold line = true -> forall y : Q, is_binary64 y ->
      (Qabs (score line - (size line + 10)) <= Qabs (y - (size line + 10)))%Q)).
  { intros line. split.
    - apply score_not_bold.
    - intros Hb y Hy. now apply score_bold_nearest. }
  apply String.eqb_neq in Hname.
  unfold simple_title_extraction. rewrite Hname.
  destruct (py_sort (fun a b => cand_lt b a) (title_candidates lines))
    as [|c rest] eqn:Hs.
  - assert (Hnil : title_candidates lines = []).
    { apply Permutation_nil_r. rewrite <- Hs. symmetry. apply py_sort_perm. }
    split; [|split; [|exact Hscore]].
    + intros _. now destruct lines.
    + intros (line & Hin & Hq). exfalso.
      assert (Hc : (score line, text line) ∈ title_candidates lines).
      { apply elem_of_title_candidates. eauto. }
      rewrite Hnil in Hc. now apply elem_of_nil in Hc.
  - apply sorted_candidates_head in Hs as [Hc Hmax].
    apply elem_of_title_candidates in Hc as (best & Hin & Hq & ->).
    split; [|split; [|exact Hscore]].
    + intros Hno. exfalso. exact (Hno best Hin Hq).
    + intros _. exists best. split; [exact Hin|]. split; [exact Hq|]. split.
      * destruct lines; [now apply elem_of_nil in Hin | reflexivity].
      * intros line Hl Hlq.
        apply (cand_lt_false (score best, text best) (score line, text line)).
        apply Hmax, elem_of_title_candidates. eauto.
Qed.

Lemma C7_title_is_best_candidate_witness :
  exists best, best ∈ title_page /\ is_title_candidate best /\
    simple_title_extraction title_page "report" = PyStr.strip (text best) /\
    forall line, line ∈ title_page -> is_title_candidate line ->
      (score line < score best)%Q \/
      ((score line == score best)%Q /\ String.le (text line) (text best)).
Proof.
  apply (proj1 (proj2 (C7_title_is_best_candidate title_page "report"
                         ltac:(discriminate)))).
  exists (mkLine "Annual Report" 16 true (mkBBox 72 120 400 140) 1).
  split; [right; left|]. split; [reflexivity | vm_compute; discriminate].
Defined.

(** Two bold lines of size 16 tie on the score 26, above the line of size
    18; the greater text wins; the line at y0 = 700 is no candidate. *)
Example title_page_title :
  simple_title_extraction title_page "report" = "Annual Review" /\
  simple_title_extraction title_page "file05" = "" /\
  simple_title_extraction [] "report" = "report".
Proof. vm_compute. repeat split. Qed.

(** The sum of the score is rounded.  The bold lines of sizes [11 + 2^-49]
    and [11] both score 21, the exact sum [21 + 2^-49] lying halfway between
    the doubles 21 and [21 + 2^-48]; likewise [10 + 2^-60] and [10 + 2^-61]
    both round to 10.  On the tie the greater text gives the title, though
    its line is the smaller one. *)
Example rounded_scores_tie :
  (Forall (fun line => score line == 21)%Q rounding_page /\
   simple_title_extraction rounding_page "report" = "Beta title") /\
  (Forall (fun line => score line == 10)%Q tiny_sizes_page /\
   simple_title_extraction tiny_sizes_page "report" = "Beta title").
Proof.
  split; (split; [repeat constructor | vm_compute; reflexivity]).
Qed.

(** ** Form detection across line boundaries *)

Module JoinFacts.
Import PyStr PyStrFacts.

Lemma append_assoc a b c : (a +:+ b) +:+ c = a +:+ (b +:+ c).
Proof.
  induction a as [|x a IH]; [reflexivity|].
  rewrite !append_cons. now rewrite IH.
Qed.

Lemma prefix_append p y : String.prefix p (p +:+ y) = true.
Proof.
  induction p as [|c p IH]; [now destruct y|].
  rewrite append_cons. simpl. now destruct (ascii_dec c c).
Qed.

Lemma contains_unfold s p :
  contains s p =
    String.prefix p s ||
    match s with EmptyString => false | String _ s' => contains s' p end.
Proof. destruct s; reflexivity. Qed.

Lemma contains_append x p y : contains (x +:+ p +:+ y) p = true.
Proof.
  induction x as [|c x IH].
  - rewrite append_nil, contains_unfold, prefix_append. reflexivity.
  - rewrite append_cons. simpl. rewrite IH. apply orb_true_r.
Qed.

Lemma startswith_inv s p : startswith s p = true -> exists y, s = p +:+ y.
Proof.
  unfold startswith. revert s. induction p as [|c p IH]; intros s H.
  - exists s. reflexivity.
  - destruct s as [|d s]; simpl in H; [discriminate|].
    destruct (ascii_dec c d) as [->|]; [|discriminate].
    destruct (IH s H) as [y ->]. exists y. reflexivity.
Qed.

Lemma endswith_inv s p : endswith s p = true -> exists x, s = x +:+ p.
Proof.
  induction s as [|c s IH]; intros H; cbn [endswith] in H.
  - rewrite orb_false_r in H. apply String.eqb_eq in H as <-. now exists "".
  - apply orb_true_iff in H as [H|H].
    + apply String.eqb_eq in H as <-. now exists "".
    + destruct (IH H) as [x ->]. exists (String c x). reflexivity.
Qed.

Lemma lower_append a b : lower (a +:+ b) = lower a +:+ lower b.
Proof.
  induction a as [|c a IH]; [reflexivity|].
  rewrite append_cons. simpl. rewrite IH. reflexivity.
Qed.

Lemma join_cons sep x y l : join sep (x :: y :: l) = x +:+ sep +:+ join sep (y :: l).
Proof. reflexivity. Qed.

Lemma lower_join sep l : lower (join sep l) = join (lower sep) (map lower l).
Proof.
  induction l as [|x [|y l] IH]; [reflexivity..|].
  rewrite join_cons, !lower_append, IH. reflexivity.
Qed.

(** Two neighbours of the list stand in the joined string with exactly the
    separator between them. *)
Lemma join_neighbours sep (l : list string) i a b :
  l !! i = Some a -> l !! S i = Some b ->
  exists X Y, join sep l = X +:+ a +:+ sep +:+ b +:+ Y.
Proof.
  revert i. induction l as [|x l IH]; intros i Hi Hj; [discriminate|].
  destruct i as [|i]; simpl in Hi, Hj.
  - injection Hi as ->. destruct l as [|y l]; [discriminate|].
    simpl in Hj. injection Hj as ->. exists "".
    destruct l as [|z l].
    + exists "". simpl. rewrite append_nil. f_equal. f_equal.
      clear. induction b as [|c b IH]; [reflexivity|].
      rewrite append_cons. now rewrite <- IH.
    + exists (sep +:+ join sep (z :: l)). rewrite !join_cons. reflexivity.
  - destruct (IH i Hi Hj) as (X & Y & E).
    destruct l as [|y l]; [discriminate|].
    exists (x +:+ sep +:+ X), Y. rewrite join_cons, E.
    now rewrite !append_assoc.
Qed.

End JoinFacts.

Lemma first_20_text_lower lines :
  first_20_text lines
    = PyStr.lower (PyStr.join " " (map text (take 20 lines))).
Proof.
  unfold first_20_text. rewrite JoinFacts.lower_join, map_map. reflexivity.
Qed.

(** C9: [detect_form_document] searches the keywords in the lowercased
    texts of the first 20 lines joined by one space (the same string as the
    lowercased join of the texts), so a phrase split over two neighbouring
    lines is found: when a line among them ends in "application" and the next
    one begins with "form", the keyword "application form" occurs and counts
    towards the form score. *)
Theorem C9_keyword_split_across_lines
    (lines : list Line) (i : nat) (a b : Line) :
  (S i < 20)%nat ->
  lines !! i = Some a -> lines !! S i = Some b ->
  PyStr.endswith (PyStr.lower (text a)) "application" = true ->
  PyStr.startswith (PyStr.lower (text b)) "form" = true ->
  first_20_text lines
    = PyStr.lower (PyStr.join " " (map text (take 20 lines))) /\
  PyStr.contains (first_20_text lines) "application form" = true /\
  1 <= form_count lines.
Proof.
  intros Hi Ha Hb Hend Hstart.
  split; [apply first_20_text_lower|].
  assert (Hc : PyStr.contains (first_20_text lines) "application form" = true).
  { apply JoinFacts.endswith_inv in Hend as [a' Ea].
    apply JoinFacts.startswith_inv in Hstart as [b' Eb].
    destruct (JoinFacts.join_neighbours " "
                (map (fun line => PyStr.lower (text line)) (take 20 lines))
                i (PyStr.lower (text a)) (PyStr.lower (text b)))
      as (X & Y & E).
    - rewrite list_lookup_fmap, lookup_take_lt by lia. now rewrite Ha.
    - rewrite list_lookup_fmap, lookup_take_lt by lia. now rewrite Hb.
    - unfold first_20_text. rewrite E, Ea, Eb.
      replace (X +:+ (a' +:+ "application") +:+ " " +:+ ("form" +:+ b') +:+ Y)
        with ((X +:+ a') +:+ "application form" +:+ (b' +:+ Y)).
      + apply JoinFacts.contains_append.
      + rewrite !JoinFacts.append_assoc. reflexivity. }
  split; [exact Hc|].
  unfold form_count, form_keywords.
  rewrite filter_cons_True by exact Hc. simpl. lia.
Qed.

Lemma C9_keyword_split_witness :
  first_20_text split_form_doc
    = PyStr.lower (PyStr.join " " (map text (take 20 split_form_doc))) /\
  PyStr.contains (first_20_text split_form_doc) "application form" = true /\
  1 <= form_count split_form_doc.
Proof.
  apply (C9_keyword_split_across_lines split_form_doc 1
           (line_at "Application" 16 true 1)
           (line_at "Form for LTC advance" 16 true 1));
    [lia | reflexivity | reflexivity | vm_compute; reflexivity
    | vm_compute; reflexivity].
Defined.

Example split_form_doc_is_form :
  first_20_text split_form_doc
    = "government of india application form for ltc advance 1 name of the government servant" /\
  detect_form_document split_form_doc = true /\
  outline (process_pdf_simple "form" split_form_doc) = [].
Proof. vm_compute. repeat split. Qed.

(** ** Body size: counting and the most common size *)

Section CounterFacts.
Implicit Types (c : list (Z * Z)) (l : list Z) (x y k : Z).

Lemma occurrences_cons x y l :
  occurrences y (x :: l) = (if decide (x = y) then 1 else 0) + occurrences y l.
Proof.
  unfold occurrences. rewrite filter_cons.
  destruct (decide (x = y)); simpl length; lia.
Qed.

Lemma occurrences_nonneg y l : 0 <= occurrences y l.
Proof. unfold occurrences. lia. Qed.

Lemma occurrences_app y l1 l2 :
  occurrences y (l1 ++ l2) = occurrences y l1 + occurrences y l2.
Proof.
  induction l1 as [|x l1 IH]; [reflexivity|].
  rewrite <- app_comm_cons, !occurrences_cons, IH. lia.
Qed.

Lemma counter_incr_keys c x :
  (counter_incr c x).*1 = if decide (x ∈ c.*1) then c.*1 else c.*1 ++ [x].
Proof.
  induction c as [|[k n] c IH].
  - destruct (decide (x ∈ ([] : list (Z * Z)).*1)) as [H|H]; [|reflexivity].
    now apply elem_of_nil in H.
  - cbn [counter_incr]. destruct (Z.eqb_spec k x) as [->|Hne].
    + destruct (decide (x ∈ ((x, n) :: c).*1)) as [H|H]; [reflexivity|].
      exfalso. apply H. left.
    + rewrite !fmap_cons, IH. cbn [fst].
      destruct (decide (x ∈ c.*1)) as [Hin|Hin],
               (decide (x ∈ k :: c.*1)) as [Hin'|Hin']; try reflexivity.
      * exfalso. apply Hin'. now right.
      * exfalso. apply elem_of_cons in Hin' as [E|Hin']; [congruence | contradiction].
Qed.

Lemma counter_incr_get c x y :
  counter_get (counter_incr c x) y
    = counter_get c y + (if decide (x = y) then 1 else 0).
Proof.
  induction c as [|[k n] c IH]; simpl.
  - destruct (Z.eqb_spec x y), (decide (x = y)); try congruence; lia.
  - destruct (Z.eqb_spec k x) as [->|Hne]; simpl.
    + destruct (Z.eqb_spec x y), (decide (x = y)); try congruence; lia.
    + destruct (Z.eqb_spec k y) as [->|Hne'].
      * rewrite decide_False by congruence. lia.
      * exact IH.
Qed.

Lemma counter_incr_NoDup c x : NoDup c.*1 -> NoDup (counter_incr c x).*1.
Proof.
  intros Hnd. rewrite counter_incr_keys.
  destruct (decide (x ∈ c.*1)) as [Hin|Hin]; [exact Hnd|].
  apply NoDup_app. split; [exact Hnd|]. split.
  - intros k Hk ->%list_elem_of_singleton. contradiction.
  - apply NoDup_singleton.
Qed.

Lemma counter_fold_get l c y :
  counter_get (fold_left counter_incr l c) y = counter_get c y + occurrences y l.
Proof.
  revert c. induction l as [|x l IH]; intros c; simpl.
  - unfold occurrences. simpl. lia.
  - rewrite IH, counter_incr_get, occurrences_cons. lia.
Qed.

Lemma counter_fold_NoDup l c :
  NoDup c.*1 -> NoDup (fold_left counter_incr l c).*1.
Proof.
  revert c. induction l as [|x l IH]; intros c Hnd; simpl; [exact Hnd|].
  apply IH, counter_incr_NoDup, Hnd.
Qed.

(** Counting only appends keys: the keys already present keep their
    places, and the new ones are elements of the list counted. *)
Lemma counter_fold_keys l c :
  exists extra,
    (fold_left counter_incr l c).*1 = c.*1 ++ extra /\
    forall k, k ∈ extra -> k ∈ l.
Proof.
  revert c. induction l as [|x l IH]; intros c; simpl.
  - exists []. split; [now rewrite app_nil_r|]. intros k H. exact H.
  - destruct (IH (counter_incr c x)) as (extra & E & Hsub).
    rewrite counter_incr_keys in E.
    destruct (decide (x ∈ c.*1)).
    + exists extra. split; [exact E|]. intros k Hk. right. now apply Hsub.
    + exists (x :: extra). split; [now rewrite E, <- app_assoc|].
      intros k [->|Hk]%elem_of_cons; [left | right; now apply Hsub].
Qed.

Lemma counter_fold_elem l c k :
  k ∈ l -> k ∈ (fold_left counter_incr l c).*1.
Proof.
  revert c. induction l as [|x l IH]; intros c Hin.
  - now apply elem_of_nil in Hin.
  - apply elem_of_cons in Hin as [->|Hin]; simpl; [|now apply IH].
    destruct (counter_fold_keys l (counter_incr c x)) as (extra & -> & _).
    apply elem_of_app. left. rewrite counter_incr_keys.
    destruct (decide (x ∈ c.*1)) as [H|H]; [exact H|].
    apply elem_of_app. right. left.
Qed.

Lemma counter_get_entry c k n :
  NoDup c.*1 -> (k, n) ∈ c -> counter_get c k = n.
Proof.
  induction c as [|[k' n'] c IH]; intros Hnd Hin.
  - now apply elem_of_nil in Hin.
  - simpl in Hnd. apply NoDup_cons in Hnd as [Hk' Hnd]. simpl.
    apply elem_of_cons in Hin as [E|Hin].
    + injection E as -> ->. now rewrite Z.eqb_refl.
    + destruct (Z.eqb_spec k' k) as [->|_]; [|now apply IH].
      exfalso. apply Hk'.
      apply (list_elem_of_fmap_2 fst) in Hin. exact Hin.
Qed.

(** An entry of [Counter l] holds the number of occurrences of its key. *)
Lemma Counter_entry l k n : (k, n) ∈ Counter l -> n = occurrences k l.
Proof.
  intros Hin. unfold Counter in *.
  pose proof (counter_fold_NoDup l [] (NoDup_nil_2)) as Hnd.
  rewrite <- (counter_get_entry _ _ _ Hnd Hin), counter_fold_get. simpl. lia.
Qed.

(** [max] keeps the first of the items of greatest count: the items before
    the chosen one have a smaller count, the items behind it none greater. *)
Lemma max_by_count_first (items : list (Z * Z)) (best : Z * Z) :
  exists p q,
    best :: items = p ++ max_by_count best items :: q /\
    (forall it, it ∈ p -> it.2 < (max_by_count best items).2) /\
    (forall it, it ∈ q -> it.2 <= (max_by_count best items).2).
Proof.
  revert best. induction items as [|it items IH]; intros best.
  - exists [], []. split; [reflexivity|].
    split; intros x Hx; now apply elem_of_nil in Hx.
  - unfold max_by_count. simpl. fold (max_by_count
      (if best.2 <? it.2 then it else best) items).
    destruct (Z.ltb_spec best.2 it.2) as [Hlt|Hge].
    + destruct (IH it) as (p & q & E & Hp & Hq).
      remember (max_by_count it items) as m eqn:Hm. clear Hm.
      assert (Hit : it.2 <= m.2).
      { assert (Hin : it ∈ p ++ m :: q) by (rewrite <- E; left).
        apply elem_of_app in Hin as [Hin|Hin]; [apply Hp in Hin; lia|].
        apply elem_of_cons in Hin as [->|Hin]; [lia | now apply Hq]. }
      exists (best :: p), q. split; [now rewrite E|]. split; [|exact Hq].
      intros x [->|Hx]%elem_of_cons; [lia | now apply Hp].
    + destruct (IH best) as (p & q & E & Hp & Hq).
      remember (max_by_count best items) as m eqn:Hm. clear Hm.
      destruct p as [|b p]; simpl in E; injection E as E1 E2.
      * subst m. exists [], (it :: items). split; [reflexivity|].
        split; [intros x Hx; now apply elem_of_nil in Hx|].
        intros x [->|Hx]%elem_of_cons; [lia|].
        apply Hq. rewrite <- E2. exact Hx.
      * subst b.
        assert (Hb : best.2 < m.2) by (apply Hp; left).
        exists (best :: it :: p), q. split; [now rewrite E2|].
        split; [|exact Hq].
        intros x [->|[->|Hx]%elem_of_cons]%elem_of_cons; [lia | lia |].
        apply Hp. now right.
Qed.

Lemma NoDup_split_unique (a a' b b' : list Z) x :
  NoDup (a ++ x :: b) -> a ++ x :: b = a' ++ x :: b' -> a = a'.
Proof.
  revert a'. induction a as [|y a IH]; intros a' Hnd E.
  - destruct a' as [|y' a']; [reflexivity|].
    simpl in E. injection E as -> E. simpl in Hnd.
    apply NoDup_cons in Hnd as [Hx _]. exfalso. apply Hx.
    rewrite E. apply elem_of_app. right. left.
  - simpl in Hnd. apply NoDup_cons in Hnd as [Hy Hnd].
    destruct a' as [|y' a']; simpl in E; injection E as E1 E2.
    + subst y. exfalso. apply Hy. apply elem_of_app. right. left.
    + subst y'. f_equal. now apply IH.
Qed.

End CounterFacts.

Lemma occurrences_not_elem (s : Z) (l : list Z) : s ∉ l -> occurrences s l = 0.
Proof.
  intros Hs. induction l as [|x l IH]; [reflexivity|].
  rewrite occurrences_cons, IH.
  - destruct (decide (x = s)) as [->|_]; [|reflexivity].
    exfalso. apply Hs. left.
  - intros H. apply Hs. now right.
Qed.

Lemma Counter_keys_elem (l : list Z) (k : Z) : k ∈ (Counter l).*1 <-> k ∈ l.
Proof.
  split; [|apply counter_fold_elem].
  unfold Counter. destruct (counter_fold_keys l []) as (extra & -> & Hsub).
  simpl. apply Hsub.
Qed.

(** What [Counter(l).most_common(1)] returns for a list that is not empty:
    an element of greatest count, the one that occurs first in [l] among
    the elements of that count. *)
Lemma Counter_most_common (l : list Z) :
  l <> [] ->
  exists r n,
    most_common_1 (Counter l) = [(r, n)] /\
    n = occurrences r l /\
    (forall s, occurrences s l <= n) /\
    exists l1 l2, l = l1 ++ r :: l2 /\ (r ∉ l1) /\
      forall s, s ∈ l1 -> occurrences s l < n.
Proof.
  intros Hne.
  destruct (Counter l) as [|it items] eqn:EC.
  { destruct l as [|x l]; [contradiction|].
    assert (H : x ∈ (Counter (x :: l)).*1) by (apply Counter_keys_elem; left).
    rewrite EC in H. now apply elem_of_nil in H. }
  destruct (max_by_count_first items it) as (p & q & E & Hp & Hq).
  destruct (max_by_count it items) as [r n] eqn:Em. simpl in Hp, Hq.
  assert (Hentry : forall s n', (s, n') ∈ it :: items -> n' = occurrences s l).
  { intros s n' H. rewrite <- EC in H. now apply Counter_entry. }
  assert (Hm : (r, n) ∈ it :: items).
  { rewrite E. apply elem_of_app. right. left. }
  assert (Hn : n = occurrences r l) by now apply Hentry.
  exists r, n. split; [simpl; now rewrite Em|]. split; [exact Hn|]. split.
  - intros s. destruct (decide (s ∈ l)) as [Hs|Hs].
    + apply Counter_keys_elem in Hs. rewrite EC in Hs.
      apply list_elem_of_fmap in Hs as ([s' n'] & -> & Hin). simpl.
      rewrite <- (Hentry _ _ Hin). rewrite E in Hin.
      apply elem_of_app in Hin as [Hin|Hin]; [apply Hp in Hin; simpl in Hin; lia|].
      apply elem_of_cons in Hin as [[= -> ->]|Hin]; [lia|].
      apply Hq in Hin. exact Hin.
    + rewrite (occurrences_not_elem _ _ Hs), Hn. apply occurrences_nonneg.
  - assert (Hr : r ∈ l).
    { apply Counter_keys_elem. rewrite EC.
      apply (list_elem_of_fmap_2 fst) in Hm. exact Hm. }
    destruct (list_elem_of_split_l _ _ Hr) as (l1 & l2 & El & Hl1).
    exists l1, l2. split; [exact El|]. split; [exact Hl1|].
    intros s Hs.
    (* the keys counted before the first occurrence of [r] are the keys of
       the items in front of the chosen one *)
    assert (Hkeys : p.*1 = (Counter l1).*1).
    { pose proof (counter_fold_NoDup l [] NoDup_nil_2) as Hnd.
      fold (Counter l) in Hnd. rewrite EC, E, fmap_app, fmap_cons in Hnd.
      destruct (counter_fold_keys l2 (counter_incr (Counter l1) r))
        as (extra & Ek & _).
      rewrite counter_incr_keys in Ek.
      rewrite decide_False in Ek by now rewrite Counter_keys_elem.
      assert (EC' : (Counter l).*1 = (Counter l1).*1 ++ r :: extra).
      { rewrite El. unfold Counter at 1. rewrite fold_left_app. simpl.
        fold (Counter l1). rewrite Ek, <- app_assoc. reflexivity. }
      rewrite EC, E, fmap_app, fmap_cons in EC'. simpl in EC'.
      eapply NoDup_split_unique; [exact Hnd | exact EC']. }
    assert (Hsp : s ∈ p.*1).
    { rewrite Hkeys. now apply Counter_keys_elem. }
    apply list_elem_of_fmap in Hsp as ([s' n'] & -> & Hin). simpl.
    assert (Hin' : (s', n') ∈ it :: items).
    { rewrite E. apply elem_of_app. now left. }
    rewrite <- (Hentry _ _ Hin'). apply Hp in Hin. exact Hin.
Qed.

(** C10: when the list of rounded sizes is not empty, [get_body_size]
    returns a size of greatest frequency, and among the sizes tied for that
    frequency the one whose first occurrence comes first: every size that
    occurs before the first occurrence of the result is strictly less
    frequent.  The result so depends on the order of the lines. *)
Theorem C10_body_size_is_first_most_common (lines : list Line) :
  let sizes := body_sizes lines in
  let r := get_body_size lines in
  sizes <> [] ->
  (forall s, occurrences s sizes <= occurrences r sizes) /\
  exists l1 l2, sizes = l1 ++ r :: l2 /\ (r ∉ l1) /\
    (forall s, s ∈ l1 -> occurrences s sizes < occurrences r sizes) /\
    (forall s, occurrences s sizes = occurrences r sizes -> s ∉ l1).
Proof.
  intros sizes r Hne.
  destruct (Counter_most_common sizes Hne)
    as (r' & n & Hmc & Hn & Hmax & l1 & l2 & El & Hl1 & Hlt).
  assert (Hr : r = r').
  { subst r. unfold get_body_size. fold sizes. now rewrite Hmc. }
  rewrite Hr, <- Hn. split; [exact Hmax|].
  exists l1, l2. split; [exact El|]. split; [exact Hl1|]. split; [exact Hlt|].
  intros s Hs Hin. apply Hlt in Hin. lia.
Qed.

Lemma C10_body_size_witness :
  (forall s, occurrences s (body_sizes sizes_11_first)
             <= occurrences (get_body_size sizes_11_first)
                            (body_sizes sizes_11_first)) /\
  exists l1 l2,
    body_sizes sizes_11_first = l1 ++ get_body_size sizes_11_first :: l2 /\
    (get_body_size sizes_11_first ∉ l1) /\
    (forall s, s ∈ l1 ->
       occurrences s (body_sizes sizes_11_first)
       < occurrences (get_body_size sizes_11_first)
                     (body_sizes sizes_11_first)) /\
    (forall s, occurrences s (body_sizes sizes_11_first)
               = occurrences (get_body_size sizes_11_first)
                             (body_sizes sizes_11_first) -> s ∉ l1).
Proof.
  apply (C10_body_size_is_first_most_common sizes_11_first).
  vm_compute. discriminate.
Defined.

(** The same lines in another order: the sizes 11 and 12 are tied, and the
    one met first is returned. *)
Example body_size_depends_on_order :
  sizes_11_first ≡ₚ sizes_12_first /\
  body_sizes sizes_11_first = [11; 12; 12; 11; 9] /\
  get_body_size sizes_11_first = 11 /\
  body_sizes sizes_12_first = [12; 11; 11; 12; 9] /\
  get_body_size sizes_12_first = 12 /\
  get_body_size [] = 12.
Proof.
  split; [|vm_compute; repeat split].
  unfold sizes_11_first, sizes_12_first.
  rewrite (Permutation_swap (line_at "A paragraph set in twelve points" 12 false 1)).
  apply Permutation_skip, Permutation_skip.
  apply Permutation_swap.
Qed.

(** ** Further scenarios of the specification, by computation *)

(** Scenario 2: "2.1 Background" passes the gate and gets H2. *)
Example scenario_sub_numbered :
  is_likely_heading "2.1 Background" 11 false 11 = true /\
  simple_heading_detection "2.1 Background" 11 false 11 = Some H2.
Proof. vm_compute. split; reflexivity. Qed.

(** Scenario 3: "Timeline:" passes the gate and gets H3. *)
Example scenario_timeline :
  is_likely_heading "Timeline:" 11 false 11 = true /\
  simple_heading_detection "Timeline:" 11 false 11 = Some H3.
Proof. vm_compute. split; reflexivity. Qed.

(** Scenario 5: a form field is rejected by its shape. *)
Example scenario_form_field :
  re_match FORM_FIELD_PATTERN "1. Enter your full legal name" = true /\
  is_likely_heading "1. Enter your full legal name" 14 true 11 = false.
Proof. vm_compute. split; reflexivity. Qed.

(** Scenario 6: a document without lines. *)
Example scenario_no_lines :
  process_pdf_simple "basename" [] = mkOutline "basename" [].
Proof. reflexivity. Qed.

(** A numbered heading whose title is not in title case passes the
    form-field filter, period or not. *)
Example numbered_upper_case_heading :
  is_likely_heading "1. INTRODUCTION" 14 true 11 = true /\
  simple_heading_detection "1. INTRODUCTION" 14 true 11 = Some H1.
Proof. vm_compute. split; reflexivity. Qed.

Example py_round_halves :
  map py_round [(5 # 2)%Q; (7 # 2)%Q; (-5 # 2)%Q; (-7 # 2)%Q; (119 # 10)%Q; 12%Q]
    = [2; 4; -2; -4; 12; 12].
Proof. vm_compute. reflexivity. Qed.

(** * Further properties of the code *)

(** ** Extraction of the lines of a page *)

Lemma flags_bold_bit (flags : Z) :
  negb (Z.land flags 16 =? 0) = Z.testbit flags 4.
Proof.
  assert (E : Z.land flags 16 = if Z.testbit flags 4 then 16 else 0).
  { apply Z.bits_inj'. intros n Hn. rewrite Z.land_spec.
    change 16 with (2 ^ 4). rewrite Z.pow2_bits_eqb by lia.
    destruct (Z.eqb_spec 4 n) as [<-|Hne].
    - destruct (Z.testbit flags 4); [|now rewrite Z.bits_0].
      now rewrite Z.pow2_bits_eqb.
    - rewrite andb_false_r. destruct (Z.testbit flags 4); [|now rewrite Z.bits_0].
      rewrite Z.pow2_bits_eqb by lia. symmetry. now apply Z.eqb_neq. }
  rewrite E. now destruct (Z.testbit flags 4).
Qed.

(** The span kept by the loop of lines 37-40 is the first of the longest:
    the spans in front of it are strictly shorter, those behind it are not
    longer. *)
Lemma main_span_of_first_longest (line_spans : list Span) (first : Span) :
  exists p q,
    first :: line_spans = p ++ main_span_of first line_spans :: q /\
    (forall x, x ∈ p ->
       PyStr.len (span_text x)
       < PyStr.len (span_text (main_span_of first line_spans))) /\
    (forall x, x ∈ q ->
       PyStr.len (span_text x)
       <= PyStr.len (span_text (main_span_of first line_spans))).
Proof.
  revert first. induction line_spans as [|sp rest IH]; intros first.
  - exists [], []. split; [reflexivity|].
    split; intros x Hx; now apply elem_of_nil in Hx.
  - unfold main_span_of. simpl.
    fold (main_span_of
            (if PyStr.len (span_text first) <? PyStr.len (span_text sp)
             then sp else first) rest).
    destruct (Z.ltb_spec (PyStr.len (span_text first)) (PyStr.len (span_text sp)))
      as [Hlt|Hge].
    + destruct (IH sp) as (p & q & E & Hp & Hq).
      remember (main_span_of sp rest) as m eqn:Hm. clear Hm.
      assert (Hsp : PyStr.len (span_text sp) <= PyStr.len (span_text m)).
      { assert (Hin : sp ∈ p ++ m :: q) by (rewrite <- E; left).
        apply elem_of_app in Hin as [Hin|Hin]; [apply Hp in Hin; lia|].
        apply elem_of_cons in Hin as [->|Hin]; [lia | now apply Hq]. }
      exists (first :: p), q. split; [now rewrite E|]. split; [|exact Hq].
      intros x [->|Hx]%elem_of_cons; [lia | now apply Hp].
    + destruct (IH first) as (p & q & E & Hp & Hq).
      remember (main_span_of first rest) as m eqn:Hm. clear Hm.
      destruct p as [|b p]; simpl in E; injection E as E1 E2.
      * subst m. exists [], (sp :: rest). split; [reflexivity|].
        split; [intros x Hx; now apply elem_of_nil in Hx|].
        intros x [->|Hx]%elem_of_cons; [lia|].
        apply Hq. rewrite <- E2. exact Hx.
      * subst b.
        assert (Hb : PyStr.len (span_text first) < PyStr.len (span_text m))
          by (apply Hp; left).
        exists (first :: sp :: p), q. split; [now rewrite E2|].
        split; [|exact Hq].
        intros x [->|[->|Hx]%elem_of_cons]%elem_of_cons; [lia | lia |].
        apply Hp. now right.
Qed.

(** X1: a line that [extract_simple_lines] keeps carries the trimmed
    concatenation of its span texts and the line's box; its size and bold flag
    come from the first of its longest spans (earlier spans are strictly
    shorter, later ones not longer), the bold flag being bit 4 of the flags
    of that span. *)
Theorem extract_line_takes_first_longest_span (line : RawLine) (e : ExtractedLine) :
  extract_line line = Some e ->
  etext e = PyStr.strip (PyStr.join "" (map span_text (spans line))) /\
  ebbox e = line_bbox line /\
  exists p sp q,
    spans line = p ++ sp :: q /\
    esize e = span_size sp /\
    ebold e = Z.testbit (span_flags sp) 4 /\
    (forall x, x ∈ p -> PyStr.len (span_text x) < PyStr.len (span_text sp)) /\
    (forall x, x ∈ q -> PyStr.len (span_text x) <= PyStr.len (span_text sp)).
Proof.
  unfold extract_line. destruct (spans line) as [|first rest] eqn:Es;
    [discriminate|].
  destruct (_ <? 2); [discriminate|]. intros [= <-].
  cbn [etext esize ebold ebbox].
  split; [reflexivity|]. split; [reflexivity|].
  rewrite Z.ltb_irrefl.
  destruct (main_span_of_first_longest rest first) as (p & q & E & Hp & Hq).
  exists p, (main_span_of first rest), q.
  split; [exact E|]. split; [reflexivity|].
  split; [apply flags_bold_bit|]. split; assumption.
Qed.

Lemma extract_line_witness :
  extract_line heading_line
    = Some (mkExtractedLine "2 Methodsand so" 14 true (mkBBox 72 90 300 110)) /\
  exists p sp q,
    spans heading_line = p ++ sp :: q /\
    (14 : Q) = span_size sp /\
    true = Z.testbit (span_flags sp) 4 /\
    (forall x, x ∈ p -> PyStr.len (span_text x) < PyStr.len (span_text sp)) /\
    (forall x, x ∈ q -> PyStr.len (span_text x) <= PyStr.len (span_text sp)).
Proof.
  assert (E : extract_line heading_line
              = Some (mkExtractedLine "2 Methodsand so" 14 true
                        (mkBBox 72 90 300 110)))
    by (vm_compute; reflexivity).
  split; [exact E|].
  exact (proj2 (proj2 (extract_line_takes_first_longest_span _ _ E))).
Defined.

Lemma elem_of_extract_simple_lines (blocks : list Block) (e : ExtractedLine) :
  e ∈ extract_simple_lines blocks <->
  exists block block_lines' line,
    block ∈ blocks /\ block_lines block = Some block_lines' /\
    line ∈ block_lines' /\ extract_line line = Some e.
Proof.
  unfold extract_simple_lines. rewrite list_elem_of_In, in_flat_map. split.
  - intros (block & Hb & He). apply list_elem_of_In in Hb, He.
    destruct (block_lines block) as [ls|] eqn:El;
      [|now apply elem_of_nil in He].
    apply list_elem_of_omap in He as (line & Hl & He).
    exists block, ls, line. auto.
  - intros (block & ls & line & Hb & El & Hl & He).
    exists block. split; [now apply list_elem_of_In|].
    apply list_elem_of_In. rewrite El. apply list_elem_of_omap. eauto.
Qed.

Lemma extract_simple_lines_spec (blocks : list Block) (e : ExtractedLine) :
  e ∈ extract_simple_lines blocks ->
  PyStr.strip (etext e) = etext e /\
  2 <= PyStr.len (etext e) /\
  exists block block_lines' line,
    block ∈ blocks /\ block_lines block = Some block_lines' /\
    line ∈ block_lines' /\ spans line <> [] /\ extract_line line = Some e.
Proof.
  intros (block & ls & line & Hb & El & Hl & He)%elem_of_extract_simple_lines.
  assert (H : PyStr.strip (etext e) = etext e /\ 2 <= PyStr.len (etext e)
              /\ spans line <> []).
  { unfold extract_line in He. destruct (spans line) as [|first rest];
      [discriminate|].
    destruct (Z.ltb_spec
                (PyStr.len (PyStr.strip
                   (PyStr.join "" (map span_text (first :: rest))))) 2)
      as [Hlt|Hge]; [discriminate|].
    injection He as <-. simpl. split; [apply PyStrFacts.strip_idem|].
    split; [exact Hge | discriminate]. }
  destruct H as (H1 & H2 & H3). split; [exact H1|]. split; [exact H2|].
  exists block, ls, line. auto.
Qed.

(** X2: every line [extract_simple_lines] returns stems from a line of a
    block that has lines, is trimmed and has at least two characters; blocks
    without lines, lines without spans and lines whose trimmed text is
    shorter give nothing. *)
Theorem extracted_lines_are_trimmed (blocks : list Block) (e : ExtractedLine) :
  e ∈ extract_simple_lines blocks ->
  PyStr.strip (etext e) = etext e /\
  2 <= PyStr.len (etext e) /\
  exists block block_lines' line,
    block ∈ blocks /\ block_lines block = Some block_lines' /\
    line ∈ block_lines' /\ spans line <> [] /\ extract_line line = Some e.
Proof. apply extract_simple_lines_spec. Qed.

Lemma extracted_lines_witness :
  extract_simple_lines sample_page
    = [ mkExtractedLine "2 Methodsand so" 14 true (mkBBox 72 90 300 110) ] /\
  PyStr.strip "2 Methodsand so" = "2 Methodsand so" /\
  2 <= PyStr.len "2 Methodsand so".
Proof.
  assert (E : extract_simple_lines sample_page
              = [ mkExtractedLine "2 Methodsand so" 14 true
                    (mkBBox 72 90 300 110) ])
    by (vm_compute; reflexivity).
  split; [exact E|].
  destruct (extracted_lines_are_trimmed sample_page
              (mkExtractedLine "2 Methodsand so" 14 true (mkBBox 72 90 300 110)))
    as (H1 & H2 & _).
  - rewrite E. left.
  - split; [exact H1 | exact H2].
Defined.

(** ** The page loop *)

Lemma elem_of_read_pages (n : Z) (doc : list (list Block)) (l : Line) :
  l ∈ read_pages n doc ->
  exists (i : nat) page e,
    doc !! i = Some page /\ e ∈ extract_simple_lines page /\
    l = set_page (n + Z.of_nat i + 1) e.
Proof.
  revert n. induction doc as [|page rest IH]; intros n; simpl.
  - intros H. now apply elem_of_nil in H.
  - intros [H|H]%elem_of_app.
    + apply list_elem_of_fmap in H as (e & -> & He).
      exists 0%nat, page, e. split; [reflexivity|]. split; [exact He|].
      f_equal. lia.
    + apply IH in H as (i & page' & e & Hi & He & ->).
      exists (S i), page', e. split; [exact Hi|]. split; [exact He|].
      f_equal. lia.
Qed.

Lemma read_pages_sorted (n : Z) (doc : list (list Block)) :
  StronglySorted (fun a b => page a <= page b) (read_pages n doc).
Proof.
  revert n. induction doc as [|pg rest IH]; intros n; simpl; [constructor|].
  apply StronglySorted_app_2; [| |apply IH].
  - intros a b Ha Hb.
    apply list_elem_of_fmap in Ha as (e & -> & _).
    apply elem_of_read_pages in Hb as (i & ? & e' & _ & _ & ->). simpl. lia.
  - induction (extract_simple_lines pg) as [|e es IHe]; [constructor|].
    rewrite fmap_cons. constructor; [exact IHe|].
    rewrite Forall_forall. intros b (e' & -> & _)%list_elem_of_fmap.
    simpl. lia.
Qed.

Lemma read_all_lines_spec (doc : list (list Block)) :
  StronglySorted (fun a b => page a <= page b) (read_all_lines doc) /\
  forall l, l ∈ read_all_lines doc ->
    1 <= page l <= Z.of_nat (length doc) /\
    PyStr.strip (text l) = text l /\
    2 <= PyStr.len (text l).
Proof.
  split; [apply read_pages_sorted|].
  intros l (i & pg & e & Hi & He & ->)%elem_of_read_pages.
  apply lookup_lt_Some in Hi.
  apply extract_simple_lines_spec in He as (H1 & H2 & _).
  simpl. split; [lia|]. split; assumption.
Qed.

(** X3: the lines [process_pdf_simple] collects carry 1-based page
    numbers, at most the number of pages, in ascending order; each is
    trimmed and has at least two characters. *)
Theorem read_all_lines_pages (doc : list (list Block)) :
  StronglySorted (fun a b => page a <= page b) (read_all_lines doc) /\
  forall l, l ∈ read_all_lines doc ->
    1 <= page l <= Z.of_nat (length doc) /\
    PyStr.strip (text l) = text l /\
    2 <= PyStr.len (text l).
Proof. apply read_all_lines_spec. Qed.

Lemma first_page_none (lines : list Line) :
  (forall l, l ∈ lines -> page l <> 1) -> first_page lines = [].
Proof.
  unfold first_page. induction lines as [|l ls IH]; intros H; [reflexivity|].
  rewrite filter_cons_False by (apply H; left).
  apply IH. intros l' Hl'. apply H. now right.
Qed.

Lemma first_page_all (lines : list Line) :
  (forall l, l ∈ lines -> page l = 1) -> first_page lines = lines.
Proof.
  unfold first_page. induction lines as [|l ls IH]; intros H; [reflexivity|].
  rewrite filter_cons_True by (apply H; left).
  f_equal. apply IH. intros l' Hl'. apply H. now right.
Qed.

Lemma first_page_read_all_lines (doc : list (list Block)) :
  first_page (read_all_lines doc) =
    match doc with
    | [] => []
    | page :: _ => map (set_page 1) (extract_simple_lines page)
    end.
Proof.
  destruct doc as [|pg rest]; [reflexivity|].
  unfold read_all_lines. simpl. unfold first_page at 1. rewrite filter_app.
  fold (first_page (map (set_page 1) (extract_simple_lines pg))).
  fold (first_page (read_pages 1 rest)).
  rewrite first_page_all, first_page_none.
  - apply app_nil_r.
  - intros l (i & ? & e & _ & _ & ->)%elem_of_read_pages. simpl. lia.
  - intros l (e & -> & _)%list_elem_of_fmap. reflexivity.
Qed.

(** X4: the lines of page 1, from which the title is taken, are the lines
    extracted from the first page of the document, in their order. *)
Theorem first_page_is_first_pdf_page (doc : list (list Block)) :
  first_page (read_all_lines doc) =
    match doc with
    | [] => []
    | page :: _ => map (set_page 1) (extract_simple_lines page)
    end.
Proof. apply first_page_read_all_lines. Qed.

(** X5: an entry of the outline of a document carries the number of one
    of its pages. *)
Theorem outline_pages_in_range
    (stem : string) (doc : list (list Block)) (h : Heading) :
  h ∈ outline (process_pdf_document stem doc) ->
  1 <= hpage h <= Z.of_nat (length doc).
Proof.
  unfold process_pdf_document. intros Hin.
  destruct (outline_origin _ _ _ Hin) as (line & Hl & Hh).
  apply heading_of_Some in Hh as (_ & _ & _ & ->).
  now apply (proj2 (read_all_lines_spec doc)).
Qed.

Lemma outline_pages_in_range_witness :
  outline (process_pdf_document "doc" sample_doc)
    = [ mkHeading H1 "2 Methodsand so " 1; mkHeading H3 "Timeline: " 2 ] /\
  1 <= 2 <= Z.of_nat (length sample_doc).
Proof.
  assert (E : outline (process_pdf_document "doc" sample_doc)
              = [ mkHeading H1 "2 Methodsand so " 1; mkHeading H3 "Timeline: " 2 ])
    by (vm_compute; reflexivity).
  split; [exact E|].
  apply (outline_pages_in_range "doc" sample_doc (mkHeading H3 "Timeline: " 2)).
  rewrite E. right. left.
Defined.

Lemma read_pages_nil (n : Z) (doc : list (list Block)) :
  (forall page, page ∈ doc -> extract_simple_lines page = []) ->
  read_pages n doc = [].
Proof.
  revert n. induction doc as [|pg rest IH]; intros n H; simpl; [reflexivity|].
  rewrite (H pg) by left. simpl. apply IH. intros pg' Hpg'. apply H. now right.
Qed.

(** X6: a document none of whose pages yields a line (a document without
    pages among them) gets its base name as title and an empty outline. *)
Theorem empty_document_outline (stem : string) (doc : list (list Block)) :
  (forall page, page ∈ doc -> extract_simple_lines page = []) ->
  process_pdf_document stem doc = mkOutline stem [].
Proof.
  intros H. unfold process_pdf_document, read_all_lines.
  now rewrite (read_pages_nil 0 doc H).
Qed.

Lemma empty_document_outline_witness :
  process_pdf_document "report" [ [ mkBlock None ]; [] ]
    = mkOutline "report" [].
Proof.
  apply (empty_document_outline "report" [ [ mkBlock None ]; [] ]).
  intros pg [->|[->|H]%elem_of_cons]%elem_of_cons; [reflexivity..|].
  now apply elem_of_nil in H.
Defined.

(** X7: for the base name "file05" the title is empty whenever the
    document has a line, form or not, whatever its lines are; a document
    without lines keeps the base name "file05" as its title. *)
Theorem sentinel_title (lines : list Line) :
  title (process_pdf_simple "file05" lines)
    = match lines with [] => "file05" | _ => "" end.
Proof.
  destruct lines as [|l ls]; [reflexivity|].
  unfold process_pdf_simple.
  destruct (detect_form_document (l :: ls)); reflexivity.
Qed.

(** ** The gate and the level assignment against each other *)

Ltac kill := intros; first [discriminate | reflexivity].

(** X8: a line that passes the gate and still gets no level is one whose
    trimmed text ends with ":" and has 40 to 49 characters; every other line
    that passes the gate gets a level. *)
Theorem gate_pass_without_level
    (t : string) (s : Q) (b : bool) (body_size : Z) :
  is_likely_heading t s b body_size = true ->
  simple_heading_detection t s b body_size = None ->
  PyStr.endswith (PyStr.strip t) ":" = true /\
  40 <= PyStr.len (PyStr.strip t) <= 49.
Proof.
  unfold is_likely_heading, simple_heading_detection.
  set (tc := PyStr.strip t). set (tl := PyStr.strip (PyStr.lower tc)).
  destruct (re_match SUB_SUB_NUMBERED_PATTERN tc); [kill|].
  destruct (re_match SUB_NUMBERED_PATTERN tc); [kill|].
  destruct (re_match NUMBERED_PATTERN tc); [kill|].
  destruct (re_match APPENDIX_PATTERN tc); [kill|].
  destruct (bool_decide (tl ∈ KNOWN_H1_HEADINGS)); [kill|].
  destruct (PyStr.endswith tc ":" && (PyStr.len tc <? 50)) eqn:Ec.
  - destruct (PyStr.startswith tl "for each"); [kill|].
    destruct (in_list tl ["timeline:"; "milestones:"]); [kill|].
    destruct (Z.ltb_spec (PyStr.len tc) 40) as [Hlt|Hge]; [kill|].
    intros _ _. apply andb_true_iff in Ec as [He Hl%Z.ltb_lt].
    split; [exact He | lia].
  - destruct (PyStr.startswith tl "phase "); [kill|].
    destruct (PyStr.isupper tc && (5 <=? PyStr.len tc) && (PyStr.len tc <=? 30));
      [kill|].
    destruct (b && Qlt_bool (inject_Z (body_size + 2)) s); [kill|].
    destruct ((PyStr.len tc <? 3) || (200 <? PyStr.len tc)); [kill|].
    destruct (PyStr.contains tc ". " && (50 <? PyStr.len tc)); [kill|].
    destruct (re_match FORM_FIELD_PATTERN tc); kill.
Qed.

Lemma gate_pass_without_level_witness :
  let t := "Summary of the projected budget allocations:" in
  is_likely_heading t 11 false 11 = true /\
  simple_heading_detection t 11 false 11 = None /\
  PyStr.endswith (PyStr.strip t) ":" = true /\
  40 <= PyStr.len (PyStr.strip t) <= 49.
Proof.
  assert (Hg : is_likely_heading
                 "Summary of the projected budget allocations:" 11 false 11 = true)
    by (vm_compute; reflexivity).
  assert (Hd : simple_heading_detection
                 "Summary of the projected budget allocations:" 11 false 11 = None)
    by (vm_compute; reflexivity).
  split; [exact Hg|]. split; [exact Hd|].
  exact (gate_pass_without_level _ _ _ _ Hg Hd).
Defined.

(** X9: a line to which [simple_heading_detection] would give a level is
    turned down by the gate only through one of its three rejections: a
    trimmed text shorter than 3 or longer than 200 characters, a text of more
    than 50 characters that contains ". ", or the form-field shape. *)
Theorem gate_rejects_levelled_line_by_filter
    (t : string) (s : Q) (b : bool) (body_size : Z) (l : Level) :
  simple_heading_detection t s b body_size = Some l ->
  is_likely_heading t s b body_size = false ->
  gate_filter (PyStr.strip t) = true.
Proof.
  unfold is_likely_heading, simple_heading_detection, gate_filter.
  set (tc := PyStr.strip t). set (tl := PyStr.strip (PyStr.lower tc)).
  destruct ((PyStr.len tc <? 3) || (200 <? PyStr.len tc)); [kill|].
  destruct (PyStr.contains tc ". " && (50 <? PyStr.len tc)); [kill|].
  destruct (re_match FORM_FIELD_PATTERN tc); [kill|].
  destruct (re_match SUB_SUB_NUMBERED_PATTERN tc),
           (re_match SUB_NUMBERED_PATTERN tc),
           (re_match NUMBERED_PATTERN tc),
           (re_match APPENDIX_PATTERN tc); try kill.
  destruct (bool_decide (tl ∈ KNOWN_H1_HEADINGS)); [kill|].
  destruct (PyStr.endswith tc ":" && (PyStr.len tc <? 50)); [kill|].
  destruct (PyStr.startswith tl "phase "); [kill|].
  destruct (PyStr.isupper tc && (5 <=? PyStr.len tc) && (PyStr.len tc <=? 30));
    [kill|].
  destruct (b && Qlt_bool (inject_Z (body_size + 2)) s); kill.
Qed.

Lemma gate_rejects_levelled_line_witness :
  gate_filter (PyStr.strip "1. Enter your full legal name") = true.
Proof.
  apply (gate_rejects_levelled_line_by_filter
           "1. Enter your full legal name" 11 false 11 H1);
    vm_compute; reflexivity.
Defined.

(** X10: the level H4 is given only to a text that ends with ":", has fewer
    than 50 characters and starts, lowercased, with "for each". *)
Theorem level_H4_only_for_each
    (t : string) (s : Q) (b : bool) (body_size : Z) :
  simple_heading_detection t s b body_size = Some H4 ->
  PyStr.endswith (PyStr.strip t) ":" = true /\
  PyStr.len (PyStr.strip t) < 50 /\
  PyStr.startswith (PyStr.lower (PyStr.strip t)) "for each" = true.
Proof.
  unfold simple_heading_detection. rewrite PyStrFacts.text_lower_eq.
  set (tc := PyStr.strip t). set (tl := PyStr.lower tc).
  destruct (re_match SUB_SUB_NUMBERED_PATTERN tc); [kill|].
  destruct (re_match SUB_NUMBERED_PATTERN tc); [kill|].
  destruct (re_match NUMBERED_PATTERN tc); [kill|].
  destruct (re_match APPENDIX_PATTERN tc); [kill|].
  destruct (bool_decide (tl ∈ KNOWN_H1_HEADINGS)); [kill|].
  destruct (PyStr.startswith tl "phase ") eqn:Ep,
           (PyStr.isupper tc && (5 <=? PyStr.len tc) && (PyStr.len tc <=? 30)),
           (b && Qlt_bool (inject_Z (body_size + 2)) s);
  (destruct (PyStr.endswith tc ":" && (PyStr.len tc <? 50)) eqn:Ec; [|kill];
   destruct (PyStr.startswith tl "for each") eqn:Ef;
     [|destruct (in_list tl ["timeline:"; "milestones:"]); [kill|];
       destruct (PyStr.len tc <? 40); kill];
   intros _; apply andb_true_iff in Ec as [He Hl%Z.ltb_lt]; auto).
Qed.

Lemma level_H4_only_for_each_witness :
  PyStr.endswith (PyStr.strip "For each Ontario citizen it could mean:") ":" = true /\
  PyStr.len (PyStr.strip "For each Ontario citizen it could mean:") < 50 /\
  PyStr.startswith
    (PyStr.lower (PyStr.strip "For each Ontario citizen it could mean:"))
    "for each" = true.
Proof.
  apply (level_H4_only_for_each
           "For each Ontario citizen it could mean:" 11 false 11).
  vm_compute. reflexivity.
Defined.

Lemma level_by_text
    (t : string) (s s' : Q) (b b' : bool) (body body' : Z) (l : Level) :
  simple_heading_detection t s b body = Some l ->
  (forall l', simple_heading_detection t s' b' body' = Some l' -> l' = l) /\
  (l <> H2 -> simple_heading_detection t s' b' body' = Some l).
Proof.
  unfold simple_heading_detection.
  set (tc := PyStr.strip t). set (tl := PyStr.strip (PyStr.lower tc)).
  assert (K : forall x : Level,
            (forall l', Some x = Some l' -> l' = x) /\ (x <> H2 -> Some x = Some x)).
  { intros x. split; [now intros l' [= <-] | reflexivity]. }
  destruct (re_match SUB_SUB_NUMBERED_PATTERN tc); [intros [= <-]; apply K|].
  destruct (re_match SUB_NUMBERED_PATTERN tc); [intros [= <-]; apply K|].
  destruct (re_match NUMBERED_PATTERN tc); [intros [= <-]; apply K|].
  destruct (re_match APPENDIX_PATTERN tc); [intros [= <-]; apply K|].
  destruct (bool_decide (tl ∈ KNOWN_H1_HEADINGS)); [intros [= <-]; apply K|].
  assert (A : (if PyStr.startswith tl "phase " then Some H3
               else if PyStr.isupper tc && (5 <=? PyStr.len tc)
                       && (PyStr.len tc <=? 30) then Some H1
               else if b && Qlt_bool (inject_Z (body + 2)) s then Some H2
               else None) = Some l ->
              (forall l',
                 (if PyStr.startswith tl "phase " then Some H3
                  else if PyStr.isupper tc && (5 <=? PyStr.len tc)
                          && (PyStr.len tc <=? 30) then Some H1
                  else if b' && Qlt_bool (inject_Z (body' + 2)) s' then Some H2
                  else None) = Some l' -> l' = l) /\
              (l <> H2 ->
                 (if PyStr.startswith tl "phase " then Some H3
                  else if PyStr.isupper tc && (5 <=? PyStr.len tc)
                          && (PyStr.len tc <=? 30) then Some H1
                  else if b' && Qlt_bool (inject_Z (body' + 2)) s' then Some H2
                  else None) = Some l)).
  { destruct (PyStr.startswith tl "phase "); [intros [= <-]; apply K|].
    destruct (PyStr.isupper tc && (5 <=? PyStr.len tc) && (PyStr.len tc <=? 30));
      [intros [= <-]; apply K|].
    destruct (b && Qlt_bool (inject_Z (body + 2)) s); [|discriminate].
    intros [= <-]. split; [|congruence].
    intros l'. destruct (b' && Qlt_bool (inject_Z (body' + 2)) s');
      [now intros [= <-] | discriminate]. }
  destruct (PyStr.endswith tc ":" && (PyStr.len tc <? 50)); [|exact A].
  destruct (PyStr.startswith tl "for each"); [intros [= <-]; apply K|].
  destruct (in_list tl ["timeline:"; "milestones:"]); [intros [= <-]; apply K|].
  destruct (PyStr.len tc <? 40); [intros [= <-]; apply K | exact A].
Qed.

(** X11: the font size, the bold flag and the body size can only decide
    between H2 and no level: two lines with the same text that both get a
    level get the same one, and a level other than H2 is given whatever the
    size, the bold flag and the body size are. *)
Theorem level_depends_on_text
    (t : string) (s s' : Q) (b b' : bool) (body body' : Z) (l : Level) :
  simple_heading_detection t s b body = Some l ->
  (forall l', simple_heading_detection t s' b' body' = Some l' -> l' = l) /\
  (l <> H2 -> simple_heading_detection t s' b' body' = Some l).
Proof. apply level_by_text. Qed.

Lemma level_depends_on_text_witness :
  (forall l', simple_heading_detection "Phase II trials" 11 false 11 = Some l' ->
              l' = H3) /\
  (H3 <> H2 -> simple_heading_detection "Phase II trials" 11 false 11 = Some H3).
Proof.
  apply (level_depends_on_text "Phase II trials" 30 11 true false 11 11 H3).
  vm_compute. reflexivity.
Defined.

(** ** The entries of an outline *)

Lemma rstrip_append_space (s : string) :
  PyStr.rstrip (s +:+ " ") = PyStr.rstrip s.
Proof.
  induction s as [|c s IH]; [reflexivity|].
  rewrite PyStrFacts.append_cons. simpl. now rewrite IH.
Qed.

Lemma strip_strip_space (x : string) :
  PyStr.strip (PyStr.strip x +:+ " ") = PyStr.strip x.
Proof.
  assert (Hlead : PyStr.no_lead (PyStr.strip x)).
  { apply PyStrFacts.no_lead_rstrip, PyStrFacts.no_lead_lstrip. }
  assert (Hr : PyStr.rstrip (PyStr.strip x) = PyStr.strip x).
  { apply PyStrFacts.rstrip_idem. }
  destruct (PyStr.strip x) as [|c s]; [reflexivity|].
  unfold PyStr.strip at 1. rewrite PyStrFacts.append_cons.
  simpl in Hlead. simpl PyStr.lstrip. rewrite Hlead.
  rewrite <- PyStrFacts.append_cons, rstrip_append_space. exact Hr.
Qed.

Lemma gate_true_len (t : string) (s : Q) (b : bool) (body_size : Z) :
  is_likely_heading t s b body_size = true ->
  3 <= PyStr.len (PyStr.strip t) <= 200.
Proof.
  unfold is_likely_heading.
  destruct (Z.ltb_spec (PyStr.len (PyStr.strip t)) 3); [discriminate|].
  destruct (Z.ltb_spec 200 (PyStr.len (PyStr.strip t))); [discriminate|].
  intros _. lia.
Qed.

(** The heading of a line is determined by its deduplication key. *)
Lemma heading_of_key_inj body l1 l2 h1 h2 :
  heading_of body l1 = Some h1 -> heading_of body l2 = Some h2 ->
  dedup_key h1 = dedup_key h2 -> h1 = h2.
Proof.
  intros (_ & _ & Ht1 & _)%heading_of_Some (_ & _ & Ht2 & _)%heading_of_Some.
  unfold dedup_key. rewrite Ht1, Ht2, !strip_strip_space.
  intros [= Hl Hs Hp]. destruct h1, h2; simpl in *. subst.
  now rewrite Hs.
Qed.

(** X12: the text of every outline entry is a trimmed text of 3 to 200
    characters followed by exactly one space; trimming the entry's text gives
    that text back. *)
Theorem outline_entry_text_shape
    (stem : string) (lines : list Line) (h : Heading) :
  h ∈ outline (process_pdf_simple stem lines) ->
  exists s,
    htext h = s +:+ " " /\ PyStr.strip s = s /\
    3 <= PyStr.len s <= 200 /\ PyStr.strip (htext h) = s.
Proof.
  intros Hin. destruct (outline_origin _ _ _ Hin) as (line & _ & Hh).
  apply heading_of_Some in Hh as (Hg & _ & Ht & _).
  exists (PyStr.strip (text line)). split; [exact Ht|].
  split; [apply PyStrFacts.strip_idem|].
  split; [eapply gate_true_len, Hg|].
  rewrite Ht. apply strip_strip_space.
Qed.

Lemma outline_entry_text_shape_witness :
  exists s,
    "2 Methods " = s +:+ " " /\ PyStr.strip s = s /\
    3 <= PyStr.len s <= 200 /\ PyStr.strip "2 Methods " = s.
Proof.
  apply (outline_entry_text_shape "doc" methods_doc (mkHeading H1 "2 Methods " 1)).
  vm_compute. left.
Defined.

(** X13: the deduplication drops exact repeats only.  An outline never
    holds the same entry twice, and for a document that is not a form its
    entries are exactly the headings of the lines that pass the gate and get
    a level. *)
Theorem outline_is_set_of_headings (stem : string) (lines : list Line) :
  NoDup (outline (process_pdf_simple stem lines)) /\
  (detect_form_document lines = false ->
   forall h,
     h ∈ outline (process_pdf_simple stem lines) <->
     exists line, line ∈ lines /\
                  heading_of (get_body_size lines) line = Some h).
Proof.
  split.
  - apply (NoDup_fmap_1 dedup_key).
    unfold process_pdf_simple. destruct lines as [|l ls]; [constructor|].
    destruct (detect_form_document _); simpl outline; [constructor|].
    rewrite dedup_loop_from. apply dedup_from_NoDup.
  - intros Hform h. split; [apply outline_origin|].
    intros (line & Hl & Hh).
    rewrite (outline_not_form _ _ Hform).
    set (sorted := sort_headings (find_headings (get_body_size lines) lines)).
    assert (Hs : h ∈ sorted).
    { subst sorted. unfold sort_headings.
      rewrite elem_of_py_sort, find_headings_omap.
      apply list_elem_of_omap. eauto. }
    pose proof (dedup_from_key ∅ sorted (dedup_key h)) as Hk.
    rewrite decide_False in Hk by apply not_elem_of_empty.
    destruct (filter (fun x => dedup_key x = dedup_key h) sorted)
      as [|h0 rest] eqn:Ef.
    { exfalso. eapply filter_nil_not_elem_of; [exact Ef | reflexivity | exact Hs]. }
    assert (H0 : h0 ∈ filter (fun x => dedup_key x = dedup_key h) sorted)
      by (rewrite Ef; left).
    apply list_elem_of_filter in H0 as [Hkey H0].
    assert (E : h0 = h).
    { subst sorted. unfold sort_headings in H0.
      rewrite elem_of_py_sort, find_headings_omap in H0.
      apply list_elem_of_omap in H0 as (line0 & _ & Hh0).
      eapply heading_of_key_inj; eassumption. }
    subst h0. simpl in Hk.
    assert (Hin : h ∈ filter (fun x => dedup_key x = dedup_key h)
                         (dedup_from ∅ sorted)) by (rewrite Hk; left).
    now apply list_elem_of_filter in Hin as [_ Hin].
Qed.

Lemma outline_is_set_of_headings_witness :
  mkHeading H1 "1 Introduction " 1 ∈ outline (process_pdf_simple "doc" twice_doc).
Proof.
  apply (proj2 (outline_is_set_of_headings "doc" twice_doc)).
  - vm_compute. reflexivity.
  - exists (line_at "1 Introduction" 14 false 1).
    split; [|vm_compute; reflexivity].
    right. right. right. left.
Defined.

(** ** The title of a document *)

Lemma simple_title_extraction_cases (lines : list Line) (filename : string) :
  filename <> "file05" ->
  (simple_title_extraction lines filename = filename /\
   forall line, line ∈ lines -> ~ is_title_candidate line) \/
  (exists best, best ∈ lines /\ is_title_candidate best /\
     simple_title_extraction lines filename = PyStr.strip (text best) /\
     forall line, line ∈ lines -> is_title_candidate line ->
       cand_lt (score best, text best) (score line, text line) = false).
Proof.
  intros Hname. apply String.eqb_neq in Hname.
  unfold simple_title_extraction. rewrite Hname.
  destruct (py_sort (fun a b => cand_lt b a) (title_candidates lines))
    as [|c rest] eqn:Hs.
  - left. assert (Hnil : title_candidates lines = []).
    { apply Permutation_nil_r. rewrite <- Hs. symmetry. apply py_sort_perm. }
    split; [now destruct lines|].
    intros line Hin Hq.
    assert (Hc : (score line, text line) ∈ title_candidates lines).
    { apply elem_of_title_candidates. eauto. }
    rewrite Hnil in Hc. now apply elem_of_nil in Hc.
  - right. apply sorted_candidates_head in Hs as [Hc Hmax].
    apply elem_of_title_candidates in Hc as (best & Hin & Hq & ->).
    exists best. split; [exact Hin|]. split; [exact Hq|]. split.
    + destruct lines; [now apply elem_of_nil in Hin | reflexivity].
    + intros line Hl Hlq. apply Hmax, elem_of_title_candidates. eauto.
Qed.

(** X14: whether the document is a form or not, its title (for a base name
    other than "file05") is either the base name, when no line of page 1
    lies above y0 = 200 with at least 5 characters, or the trimmed text of
    such a line of page 1, one that no other such line of page 1 beats in
    (score, text); lines of later pages never give the title. *)
Theorem title_comes_from_page_1 (stem : string) (lines : list Line) :
  stem <> "file05" ->
  (title (process_pdf_simple stem lines) = stem /\
   forall line, line ∈ lines -> page line = 1 -> ~ is_title_candidate line) \/
  (exists best, best ∈ lines /\ page best = 1 /\ is_title_candidate best /\
     title (process_pdf_simple stem lines) = PyStr.strip (text best) /\
     forall line, line ∈ lines -> page line = 1 -> is_title_candidate line ->
       (score line < score best)%Q \/
       ((score line == score best)%Q /\ String.le (text line) (text best))).
Proof.
  intros Hname.
  assert (Ht : title (process_pdf_simple stem lines)
               = simple_title_extraction (first_page lines) stem).
  { unfold process_pdf_simple. destruct lines as [|l ls].
    - simpl. unfold simple_title_extraction.
      apply String.eqb_neq in Hname. now rewrite Hname.
    - destruct (detect_form_document _); reflexivity. }
  rewrite Ht.
  destruct (simple_title_extraction_cases (first_page lines) stem Hname)
    as [[E Hno]|(best & Hin & Hq & E & Hmax)].
  - left. split; [exact E|]. intros line Hl Hp. apply Hno.
    unfold first_page. apply list_elem_of_filter. auto.
  - right. apply list_elem_of_filter in Hin as [Hp Hin].
    exists best. repeat (split; [assumption|]).
    intros line Hl Hlp Hlq.
    apply (cand_lt_false (score best, text best) (score line, text line)).
    apply Hmax; [|exact Hlq].
    unfold first_page. apply list_elem_of_filter. auto.
Qed.

Lemma title_comes_from_page_1_witness :
  title (process_pdf_simple "report" two_page_doc) = "Annual Report".
Proof.
  destruct (title_comes_from_page_1 "report" two_page_doc)
    as [[_ Hno]|(best & Hin & Hp & _ & E & _)]; [discriminate| |].
  - exfalso. apply (Hno (mkLine "Annual Report" 16 true (mkBBox 72 120 400 140) 1));
      [left | reflexivity |].
    split; [reflexivity | vm_compute; discriminate].
  - rewrite E.
    apply elem_of_cons in Hin as [->|Hin]; [reflexivity|].
    apply elem_of_cons in Hin as [->|Hin]; [discriminate Hp|].
    now apply elem_of_nil in Hin.
Defined.

(** ** The body size *)

(** X15: for a document with lines the body size is the rounded size of
    one of its lines, and of a line of more than 10 characters whenever the
    document has such a line: shorter lines count only when there is none.
    Without lines the body size is 12. *)
Theorem body_size_is_a_line_size (lines : list Line) :
  get_body_size [] = 12 /\
  (lines <> [] ->
   exists line, line ∈ lines /\
     get_body_size lines = py_round (size line) /\
     ((exists l, l ∈ lines /\ 10 < PyStr.len (text l)) ->
      10 < PyStr.len (text line))).
Proof.
  split; [reflexivity|]. intros Hne.
  assert (Hsizes : body_sizes lines <> []).
  { unfold body_sizes. destruct (qualifying_sizes lines); [|discriminate].
    destruct lines; [contradiction | discriminate]. }
  destruct (Counter_most_common _ Hsizes)
    as (r & n & Hmc & _ & _ & l1 & l2 & El & _).
  assert (Hr : get_body_size lines = r).
  { unfold get_body_size. now rewrite Hmc. }
  assert (Hin : r ∈ body_sizes lines).
  { rewrite El. apply elem_of_app. right. left. }
  unfold body_sizes, qualifying_sizes in Hin.
  destruct (filter (fun line => 10 < PyStr.len (text line)) lines)
    as [|q qs] eqn:Ef.
  - simpl in Hin. apply list_elem_of_In, in_map_iff in Hin as (line & E & Hl).
    apply list_elem_of_In in Hl.
    exists line. split; [exact Hl|]. split; [congruence|].
    intros (l & Hl' & Hlen). exfalso.
    eapply filter_nil_not_elem_of; [exact Ef | exact Hlen | exact Hl'].
  - change (r ∈ map (fun line => py_round (size line)) (q :: qs)) in Hin.
    apply list_elem_of_In, in_map_iff in Hin as (line & E & Hl).
    apply list_elem_of_In in Hl. rewrite <- Ef in Hl.
    apply list_elem_of_filter in Hl as [Hlen Hl].
    exists line. split; [exact Hl|]. split; [congruence|]. intros _. exact Hlen.
Qed.

Lemma body_size_is_a_line_size_witness :
  get_body_size short_lines_doc = 14 /\
  exists line, line ∈ short_lines_doc /\
    get_body_size short_lines_doc = py_round (size line) /\
    ((exists l, l ∈ short_lines_doc /\ 10 < PyStr.len (text l)) ->
     10 < PyStr.len (text line)).
Proof.
  split; [vm_compute; reflexivity|].
  apply (proj2 (body_size_is_a_line_size short_lines_doc)). discriminate.
Defined.

(** ** How the texts begin that the patterns match *)

Module PatternFacts.
Import Re PyStr PyStrFacts ReFacts JoinFacts.

Lemma matches_seq_inv r1 r2 w :
  matches (Seq r1 r2) w ->
  exists w1 w2, w = w1 +:+ w2 /\ matches r1 w1 /\ matches r2 w2.
Proof. intros H. inversion H; subst. eauto. Qed.

Lemma matches_chr_inv p w :
  matches (Chr p) w -> exists c, w = String c "" /\ p c = true.
Proof. intros H. inversion H; subst. eauto. Qed.

Lemma matches_opt_inv r w : matches (Opt r) w -> matches r w \/ w = "".
Proof.
  unfold Opt. intros H. inversion H; subst; [now left|].
  right. match goal with H' : matches Eps _ |- _ => now inversion H' end.
Qed.

Lemma matches_star_chr p w : matches (Star (Chr p)) w -> all_chars p w = true.
Proof.
  intros H. remember (Star (Chr p)) as r eqn:Er.
  induction H as [| | | | | |r0 w1 w2 H1 IH1 H2 IH2]; try discriminate.
  - reflexivity.
  - injection Er as ->. apply matches_chr_inv in H1 as (c & -> & Hc).
    rewrite append_cons, append_nil. simpl. rewrite Hc. now apply IH2.
Qed.

Lemma star_chr_matches p w : all_chars p w = true -> matches (Star (Chr p)) w.
Proof.
  induction w as [|c w IH]; simpl; intros H; [constructor|].
  apply andb_true_iff in H as [Hc Hw].
  change (String c w) with (String c "" +:+ w).
  constructor; [now constructor | now apply IH].
Qed.

(** A word of [p+ R] begins with a character of [p], goes on with
    characters of [p] and ends with a word of [R]. *)
Lemma plus_chr_head p R w :
  matches (Seq (Plus (Chr p)) R) w ->
  exists c ds w2,
    w = String c (ds +:+ w2) /\ p c = true /\ all_chars p ds = true /\
    matches R w2.
Proof.
  intros H. apply matches_seq_inv in H as (w1 & w2 & -> & H1 & H2).
  unfold Plus in H1. apply matches_seq_inv in H1 as (a & ds & -> & Ha & Hds).
  apply matches_chr_inv in Ha as (c & -> & Hc).
  apply matches_star_chr in Hds.
  exists c, ds, w2. rewrite append_cons, append_nil, append_cons. auto.
Qed.

Lemma skip_class_app p ds x :
  all_chars p ds = true -> head_in p x = false ->
  skip_class p (ds +:+ x) = x.
Proof.
  intros Hds Hx. induction ds as [|c ds IH].
  - rewrite append_nil. destruct x as [|c x]; [reflexivity|].
    simpl in *. now rewrite Hx.
  - simpl in Hds. apply andb_true_iff in Hds as [Hc Hds].
    rewrite append_cons. simpl. rewrite Hc. now apply IH.
Qed.

Lemma space_not_digit c : is_space c = true -> is_digit c = false.
Proof.
  destruct c as [[] [] [] [] [] [] [] []]; vm_compute;
    intros; first [reflexivity | discriminate].
Qed.

Lemma dot_not_digit c : is_dot c = true -> is_digit c = false.
Proof. unfold is_dot. intros <-%Ascii.eqb_eq. reflexivity. Qed.

Lemma dot_not_space c : is_dot c = true -> is_space c = false.
Proof. unfold is_dot. intros <-%Ascii.eqb_eq. reflexivity. Qed.

Lemma head_in_app p w rest :
  head_in p w = true -> head_in p (w +:+ rest) = true.
Proof. destruct w as [|c w]; [discriminate|]. now rewrite append_cons. Qed.

(** When every word of [R] begins in the class [p], so does every text
    that [R] matches. *)
Lemma re_match_head p R s :
  (forall w, matches R w -> head_in p w = true) ->
  re_match R s = true -> head_in p s = true.
Proof.
  intros HR (w & rest & -> & H)%re_match_spec. now apply head_in_app, HR.
Qed.

Lemma chr_word p R w : matches (Seq (Chr p) R) w -> head_in p w = true.
Proof.
  intros (w1 & w2 & -> & (c & -> & Hc)%matches_chr_inv & _)%matches_seq_inv.
  now rewrite append_cons.
Qed.

Lemma plus_chr_word p R w : matches (Seq (Plus (Chr p)) R) w -> head_in p w = true.
Proof. intros (c & ds & w2 & -> & Hc & _)%plus_chr_head. exact Hc. Qed.

(** A text matched by [c R], for a character class [c]: its head is in the
    class, and [R] matches its tail. *)
Lemma chr_then p R s :
  re_match (Seq (Chr p) R) s = true ->
  head_in p s = true /\ re_match R (tail_of s) = true.
Proof.
  intros (w & rest & -> & H)%re_match_spec.
  apply matches_seq_inv in H as (w1 & w2 & -> & H1 & H2).
  apply matches_chr_inv in H1 as (c & -> & Hc).
  rewrite append_cons, append_nil, append_cons. simpl.
  split; [exact Hc|]. apply re_match_spec. eauto.
Qed.

(** A text matched by [\d+ R], when no word of [R] begins with a digit: its
    head is a digit, and [R] matches what follows its leading digits. *)
Lemma digits_then R s :
  (forall w, matches R w -> exists p, head_in p w = true /\
                                       forall c, p c = true -> is_digit c = false) ->
  re_match (Seq (Plus digit) R) s = true ->
  head_in is_digit s = true /\ re_match R (skip_class is_digit s) = true.
Proof.
  intros HR (w & rest & -> & H)%re_match_spec.
  apply plus_chr_head in H as (c & ds & w2 & -> & Hc & Hds & H2).
  rewrite append_cons. simpl. rewrite Hc. split; [reflexivity|].
  rewrite append_assoc, skip_class_app; [apply re_match_spec; eauto|exact Hds|].
  destruct (HR w2 H2) as (p & Hp & Hnd).
  destruct w2 as [|c2 w2]; [discriminate|].
  rewrite append_cons. simpl in *. now apply Hnd.
Qed.

(** A text matched by [a? R], for a character [a]. *)
Lemma opt_lit_then a R s :
  re_match (Seq (Opt (lit a)) R) s = true ->
  re_match R s = true \/
  (head_in (Ascii.eqb a) s = true /\ re_match R (tail_of s) = true).
Proof.
  intros (w & rest & -> & H)%re_match_spec.
  apply matches_seq_inv in H as (o & w2 & -> & Ho & H2).
  apply matches_opt_inv in Ho as [Ho| ->].
  - right. apply matches_chr_inv in Ho as (c & -> & Hc).
    rewrite append_cons, append_nil, append_cons. simpl.
    split; [exact Hc|]. apply re_match_spec. eauto.
  - left. rewrite append_nil. apply re_match_spec. eauto.
Qed.

Lemma word_starts_with_space R w :
  matches (Seq (Plus space) R) w ->
  exists p, head_in p w = true /\ forall c, p c = true -> is_digit c = false.
Proof.
  intros H. exists is_space. split; [eapply plus_chr_word, H|].
  apply space_not_digit.
Qed.

Lemma word_starts_with_dot R w :
  matches (Seq (lit ".") R) w ->
  exists p, head_in p w = true /\ forall c, p c = true -> is_digit c = false.
Proof.
  intros H. exists is_dot. split; [eapply chr_word, H|]. apply dot_not_digit.
Qed.

Lemma word_starts_with_opt_dot_space R w :
  matches (Seq (Opt (lit ".")) (Seq (Plus space) R)) w ->
  exists p, head_in p w = true /\ forall c, p c = true -> is_digit c = false.
Proof.
  intros (o & w2 & -> & Ho & H2)%matches_seq_inv.
  apply matches_opt_inv in Ho as [Ho| ->].
  - exists is_dot. split; [|apply dot_not_digit].
    apply matches_chr_inv in Ho as (c & -> & Hc). now rewrite append_cons.
  - rewrite append_nil. eapply word_starts_with_space, H2.
Qed.

(** What the four numbered patterns require of the head of a text. *)

Lemma numbered_pattern_head s :
  re_match NUMBERED_PATTERN s = true -> numbered_head s = true.
Proof.
  unfold NUMBERED_PATTERN, numbered_head. intros H.
  apply digits_then in H as [Hd H];
    [|intros w; apply word_starts_with_opt_dot_space].
  rewrite Hd. simpl.
  apply opt_lit_then in H as [H|[Hdot H]].
  - apply (re_match_head is_space) in H; [now rewrite H|].
    intros w. apply plus_chr_word.
  - apply (re_match_head is_space) in H; [|intros w; apply plus_chr_word].
    change (Ascii.eqb ".") with is_dot in Hdot.
    rewrite Hdot, H. apply orb_true_r.
Qed.

Lemma sub_numbered_pattern_head s :
  re_match SUB_NUMBERED_PATTERN s = true -> sub_numbered_head s = true.
Proof.
  unfold SUB_NUMBERED_PATTERN, sub_numbered_head. intros H.
  apply digits_then in H as [Hd H]; [|intros w; apply word_starts_with_dot].
  apply chr_then in H as [Hdot H].
  apply digits_then in H as [Hd2 H]; [|intros w; apply word_starts_with_space].
  apply (re_match_head is_space) in H; [|intros w; apply plus_chr_word].
  change (Ascii.eqb ".") with is_dot in Hdot.
  now rewrite Hd, Hdot, Hd2, H.
Qed.

Lemma sub_sub_numbered_pattern_head s :
  re_match SUB_SUB_NUMBERED_PATTERN s = true -> sub_sub_numbered_head s = true.
Proof.
  unfold SUB_SUB_NUMBERED_PATTERN, sub_sub_numbered_head. intros H.
  apply digits_then in H as [Hd H]; [|intros w; apply word_starts_with_dot].
  apply chr_then in H as [Hdot H].
  apply digits_then in H as [Hd2 H]; [|intros w; apply word_starts_with_dot].
  apply chr_then in H as [Hdot2 H].
  apply (re_match_head is_digit) in H; [|intros w; apply plus_chr_word].
  change (Ascii.eqb ".") with is_dot in Hdot, Hdot2.
  now rewrite Hd, Hdot, Hd2, Hdot2, H.
Qed.

Lemma form_field_pattern_head s :
  re_match FORM_FIELD_PATTERN s = true -> form_field_head s = true.
Proof.
  unfold FORM_FIELD_PATTERN, form_field_head. intros H.
  apply digits_then in H as [Hd H]; [|intros w; apply word_starts_with_dot].
  apply chr_then in H as [Hdot H].
  apply (re_match_head is_space) in H; [|intros w; apply plus_chr_word].
  change (Ascii.eqb ".") with is_dot in Hdot.
  now rewrite Hd, Hdot, H.
Qed.

Lemma head_in_both p q s :
  head_in p s = true -> head_in q s = true -> exists c, p c = true /\ q c = true.
Proof. destruct s as [|c s]; [discriminate|]. simpl. eauto. Qed.

Ltac finish_heads :=
  repeat split; intros;
  first [discriminate | reflexivity | split; reflexivity].

Lemma heads_exclusive s :
  (numbered_head s = true ->
   sub_numbered_head s = false /\ sub_sub_numbered_head s = false) /\
  (sub_numbered_head s = true -> sub_sub_numbered_head s = false) /\
  (form_field_head s = true ->
   sub_numbered_head s = false /\ sub_sub_numbered_head s = false).
Proof.
  unfold numbered_head, sub_numbered_head, sub_sub_numbered_head,
    form_field_head.
  set (r := skip_class is_digit s).
  set (r2 := skip_class is_digit (tail_of r)).
  assert (Hsd : head_in is_space r = true -> head_in is_dot r = false).
  { intros Hs. destruct (head_in is_dot r) eqn:Hd; [|reflexivity].
    destruct (head_in_both _ _ _ Hd Hs) as (c & H1 & H2).
    apply dot_not_space in H1. congruence. }
  assert (Hsg : head_in is_space (tail_of r) = true ->
                head_in is_digit (tail_of r) = false).
  { intros Hs. destruct (head_in is_digit (tail_of r)) eqn:Hd; [|reflexivity].
    destruct (head_in_both _ _ _ Hs Hd) as (c & H1 & H2).
    apply space_not_digit in H1. congruence. }
  assert (Hsd2 : head_in is_space r2 = true -> head_in is_dot r2 = false).
  { intros Hs. destruct (head_in is_dot r2) eqn:Hd; [|reflexivity].
    destruct (head_in_both _ _ _ Hd Hs) as (c & H1 & H2).
    apply dot_not_space in H1. congruence. }
  destruct (head_in is_digit s); simpl; [|finish_heads].
  destruct (head_in is_space r) eqn:E1.
  - rewrite (Hsd eq_refl). simpl. finish_heads.
  - destruct (head_in is_dot r); simpl; [|finish_heads].
    destruct (head_in is_space (tail_of r)) eqn:E2.
    + rewrite (Hsg eq_refl). simpl. finish_heads.
    + destruct (head_in is_digit (tail_of r)); simpl; [|finish_heads].
      destruct (head_in is_space r2) eqn:E3.
      * rewrite (Hsd2 eq_refl). simpl. finish_heads.
      * finish_heads.
Qed.

End PatternFacts.

(** X16: the three numbered patterns exclude one another: a text matched
    by the plain pattern [N. rest] is matched neither by [N.N rest] nor by
    [N.N.N rest], and a text matched by [N.N rest] is not matched by
    [N.N.N rest]; so their order in [simple_heading_detection] does not
    matter. *)
Theorem numbered_patterns_exclusive (s : string) :
  (re_match NUMBERED_PATTERN s = true ->
   re_match SUB_NUMBERED_PATTERN s = false /\
   re_match SUB_SUB_NUMBERED_PATTERN s = false) /\
  (re_match SUB_NUMBERED_PATTERN s = true ->
   re_match SUB_SUB_NUMBERED_PATTERN s = false).
Proof.
  destruct (PatternFacts.heads_exclusive s) as (Hn & Hs & _).
  assert (S2 : sub_numbered_head s = false ->
               re_match SUB_NUMBERED_PATTERN s = false).
  { intros Hf. destruct (re_match SUB_NUMBERED_PATTERN s) eqn:E; [|reflexivity].
    apply PatternFacts.sub_numbered_pattern_head in E. congruence. }
  assert (S3 : sub_sub_numbered_head s = false ->
               re_match SUB_SUB_NUMBERED_PATTERN s = false).
  { intros Hf. destruct (re_match SUB_SUB_NUMBERED_PATTERN s) eqn:E;
      [|reflexivity].
    apply PatternFacts.sub_sub_numbered_pattern_head in E. congruence. }
  split.
  - intros H%PatternFacts.numbered_pattern_head. destruct (Hn H). auto.
  - intros H%PatternFacts.sub_numbered_pattern_head. auto.
Qed.

Lemma letter_not_newline (c : ascii) :
  PyStr.is_AZ c || PyStr.is_az c = true ->
  negb (Ascii.eqb c "010"%char) = true.
Proof.
  destruct c as [[] [] [] [] [] [] [] []]; vm_compute;
    intros; first [reflexivity | discriminate].
Qed.

(** Every word of the form-field shape is a word of the plain numbered
    pattern. *)
Lemma form_field_word_is_numbered (w : string) :
  matches FORM_FIELD_PATTERN w -> matches NUMBERED_PATTERN w.
Proof.
  unfold FORM_FIELD_PATTERN, NUMBERED_PATTERN.
  intros (w1 & w2 & -> & H1 & H2)%PatternFacts.matches_seq_inv.
  apply PatternFacts.matches_seq_inv in H2 as (o & w3 & -> & Ho & H3).
  apply PatternFacts.matches_seq_inv in H3 as (ss & w4 & -> & Hs & H4).
  apply PatternFacts.matches_seq_inv in H4 as (u & l & -> & Hu & Hl).
  apply PatternFacts.matches_chr_inv in Hu as (cu & -> & Hcu).
  apply PatternFacts.matches_chr_inv in Hl as (cl & -> & Hcl).
  constructor; [exact H1|]. constructor; [now apply matches_alt_l|].
  constructor; [exact Hs|]. unfold Plus, any.
  constructor.
  - constructor. apply letter_not_newline. now rewrite Hcu.
  - apply PatternFacts.star_chr_matches. simpl.
    rewrite letter_not_newline; [reflexivity|]. rewrite Hcl. apply orb_true_r.
Qed.

Lemma form_field_is_numbered (s : string) :
  re_match FORM_FIELD_PATTERN s = true -> re_match NUMBERED_PATTERN s = true.
Proof.
  intros (w & rest & -> & H)%ReFacts.re_match_spec.
  apply ReFacts.re_match_spec. exists w, rest.
  split; [reflexivity | now apply form_field_word_is_numbered].
Qed.

Lemma gate_rejects_form_field (t : string) (s : Q) (b : bool) (body_size : Z) :
  re_match FORM_FIELD_PATTERN (PyStr.strip t) = true ->
  is_likely_heading t s b body_size = false.
Proof.
  intros H. unfold is_likely_heading. rewrite H.
  destruct (_ || _); [reflexivity|]. now destruct (_ && _).
Qed.

(** X17: a line whose trimmed text has the form-field shape (digits, a
    period, white space, an uppercase and a lowercase letter) is rejected by
    the gate whatever its size and weight, although
    [simple_heading_detection] would make it an H1 heading: the plain
    numbered pattern matches every such text.  No outline holds an entry
    with such a text. *)
Theorem form_field_shape_would_be_H1
    (t : string) (s : Q) (b : bool) (body_size : Z) :
  re_match FORM_FIELD_PATTERN (PyStr.strip t) = true ->
  is_likely_heading t s b body_size = false /\
  simple_heading_detection t s b body_size = Some H1 /\
  forall stem lines h,
    h ∈ outline (process_pdf_simple stem lines) ->
    htext h <> PyStr.strip t +:+ " ".
Proof.
  intros Hff. split; [now apply gate_rejects_form_field|]. split.
  - pose proof (PatternFacts.form_field_pattern_head _ Hff) as Hh.
    destruct (PatternFacts.heads_exclusive (PyStr.strip t)) as (_ & _ & Hex).
    destruct (Hex Hh) as [Hs Hss].
    unfold simple_heading_detection.
    destruct (re_match SUB_SUB_NUMBERED_PATTERN (PyStr.strip t)) eqn:E3.
    { apply PatternFacts.sub_sub_numbered_pattern_head in E3. congruence. }
    destruct (re_match SUB_NUMBERED_PATTERN (PyStr.strip t)) eqn:E2.
    { apply PatternFacts.sub_numbered_pattern_head in E2. congruence. }
    now rewrite (form_field_is_numbered _ Hff).
  - intros stem lines h Hin Ht.
    destruct (outline_origin _ _ _ Hin) as (line & _ & Hl).
    apply heading_of_Some in Hl as (Hgate & _ & Htext & _).
    rewrite Ht in Htext. apply PyStrFacts.append_inj_r in Htext.
    rewrite gate_rejects_form_field in Hgate; [discriminate|].
    now rewrite <- Htext.
Qed.

Lemma form_field_shape_witness :
  is_likely_heading "  3. Date of birth" 30 true 11 = false /\
  simple_heading_detection "  3. Date of birth" 30 true 11 = Some H1 /\
  forall stem lines h,
    h ∈ outline (process_pdf_simple stem lines) ->
    htext h <> PyStr.strip "  3. Date of birth" +:+ " ".
Proof.
  apply (form_field_shape_would_be_H1 "  3. Date of birth" 30 true 11).
  vm_compute. reflexivity.
Defined.

(** ** The order of the lines *)

Lemma detection_strip (t : string) (s : Q) (b : bool) (body_size : Z) :
  simple_heading_detection (PyStr.strip t) s b body_size
    = simple_heading_detection t s b body_size.
Proof. unfold simple_heading_detection. now rewrite PyStrFacts.strip_idem. Qed.

(** Two headings found with the same page and text are the same heading. *)
Lemma headings_same_sort_key body l1 l2 h1 h2 :
  heading_of body l1 = Some h1 -> heading_of body l2 = Some h2 ->
  sort_key h1 = sort_key h2 -> h1 = h2.
Proof.
  intros (_ & Hd1 & Ht1 & _)%heading_of_Some (_ & Hd2 & Ht2 & _)%heading_of_Some.
  unfold sort_key. intros [= Hp Ht].
  assert (Es : PyStr.strip (text l1) = PyStr.strip (text l2)).
  { apply (PyStrFacts.append_inj_r _ _ " "). congruence. }
  rewrite <- detection_strip, Es, detection_strip in Hd1.
  destruct (level_by_text _ _ (size l2) _ (bold l2) _ body _ Hd1) as [Hl _].
  specialize (Hl _ Hd2).
  destruct h1, h2; simpl in *. congruence.
Qed.

Lemma title_of_permuted_lines (l1 l2 : list Line) (filename : string) :
  l1 ≡ₚ l2 ->
  simple_title_extraction l1 filename = simple_title_extraction l2 filename.
Proof.
  intros Hp.
  destruct (String.eqb_spec filename "file05") as [->|Hname].
  { unfold simple_title_extraction. reflexivity. }
  destruct (simple_title_extraction_cases l1 filename Hname)
    as [[E1 Hno1]|(b1 & Hin1 & Hq1 & E1 & Hmax1)],
     (simple_title_extraction_cases l2 filename Hname)
    as [[E2 Hno2]|(b2 & Hin2 & Hq2 & E2 & Hmax2)].
  - congruence.
  - exfalso. apply (Hno1 b2); [now rewrite Hp | exact Hq2].
  - exfalso. apply (Hno2 b1); [now rewrite <- Hp | exact Hq1].
  - rewrite E1, E2. f_equal.
    assert (H12 : cand_lt (score b1, text b1) (score b2, text b2) = false).
    { apply Hmax1; [now rewrite Hp | exact Hq2]. }
    assert (H21 : cand_lt (score b2, text b2) (score b1, text b1) = false).
    { apply Hmax2; [now rewrite <- Hp | exact Hq1]. }
    apply cand_lt_false in H12, H21. simpl in H12, H21.
    destruct H12 as [H12|[H12' H12]], H21 as [H21|[H21' H21]]; try lra.
    apply (anti_symm String.le); assumption.
Qed.

(** X18: the order of the lines matters only through the body size and
    the form test.  Two documents with the same lines in another order get
    the same title, and, when they have the same body size and the same
    verdict of [detect_form_document], the same outline. *)
Theorem result_independent_of_line_order
    (stem : string) (lines1 lines2 : list Line) :
  lines1 ≡ₚ lines2 ->
  title (process_pdf_simple stem lines1) = title (process_pdf_simple stem lines2) /\
  (get_body_size lines1 = get_body_size lines2 ->
   detect_form_document lines1 = detect_form_document lines2 ->
   process_pdf_simple stem lines1 = process_pdf_simple stem lines2).
Proof.
  intros Hp.
  assert (Ht : forall lines, lines <> [] ->
            title (process_pdf_simple stem lines)
            = simple_title_extraction (first_page lines) stem).
  { intros [|l ls] Hne; [contradiction|]. unfold process_pdf_simple.
    destruct (detect_form_document _); reflexivity. }
  destruct lines1 as [|a1 r1].
  { apply Permutation_nil_l in Hp as ->. split; reflexivity. }
  destruct lines2 as [|a2 r2].
  { symmetry in Hp. apply Permutation_nil_cons in Hp. contradiction. }
  assert (Etitle : title (process_pdf_simple stem (a1 :: r1))
                   = title (process_pdf_simple stem (a2 :: r2))).
  { rewrite !Ht by discriminate. apply title_of_permuted_lines.
    unfold first_page. now rewrite Hp. }
  split; [exact Etitle|]. intros Hb Hf.
  assert (Eout : outline (process_pdf_simple stem (a1 :: r1))
                 = outline (process_pdf_simple stem (a2 :: r2))).
  { destruct (detect_form_document (a1 :: r1)) eqn:F1.
    - unfold process_pdf_simple. now rewrite F1, <- Hf.
    - rewrite !outline_not_form by congruence. f_equal.
      apply (StronglySorted_unique_strong
               (fun x y => key_lt (sort_key y) (sort_key x) = false)).
      + intros x1 x2 Hx1 Hx2 R12 R21.
        unfold sort_headings in Hx1, Hx2.
        rewrite elem_of_py_sort, find_headings_omap in Hx1, Hx2.
        apply list_elem_of_omap in Hx1 as (l1 & _ & Hh1).
        apply list_elem_of_omap in Hx2 as (l2 & _ & Hh2).
        rewrite <- Hb in Hh2.
        apply (headings_same_sort_key _ _ _ _ _ Hh1 Hh2).
        apply key_lt_false in R12, R21.
        destruct (sort_key x1) as [p1 t1], (sort_key x2) as [p2 t2].
        simpl in R12, R21.
        destruct R12 as [R12|[E12 L12]], R21 as [R21|[E21 L21]]; try lia.
        f_equal; [congruence|]. apply (anti_symm String.le); assumption.
      + apply sort_headings_sorted.
      + apply sort_headings_sorted.
      + unfold sort_headings. rewrite !py_sort_perm, !find_headings_omap, Hb.
        apply omap_Permutation, Hp. }
  destruct (process_pdf_simple stem (a1 :: r1)),
           (process_pdf_simple stem (a2 :: r2)).
  simpl in *. congruence.
Qed.

Lemma result_independent_of_line_order_witness :
  process_pdf_simple "doc" methods_doc = process_pdf_simple "doc" (rev methods_doc).
Proof.
  apply (result_independent_of_line_order "doc" methods_doc (rev methods_doc)).
  - apply Permutation_rev.
  - vm_compute. reflexivity.
  - vm_compute. reflexivity.
Defined.

Lemma title_is_extraction (stem : string) (lines : list Line) :
  stem <> "file05" ->
  title (process_pdf_simple stem lines)
    = simple_title_extraction (first_page lines) stem.
Proof.
  intros Hname. unfold process_pdf_simple. destruct lines as [|l ls].
  - simpl. unfold simple_title_extraction.
    apply String.eqb_neq in Hname. now rewrite Hname.
  - destruct (detect_form_document _); reflexivity.
Qed.

(** X19: for a base name other than "file05", the title of a document is
    decided by its first page alone: the pages behind it can be dropped,
    changed or added without changing the title. *)
Theorem title_depends_on_first_pdf_page
    (stem : string) (page : list Block) (rest rest' : list (list Block)) :
  stem <> "file05" ->
  title (process_pdf_document stem (page :: rest))
    = title (process_pdf_document stem (page :: rest')).
Proof.
  intros Hname. unfold process_pdf_document.
  rewrite !title_is_extraction by exact Hname.
  now rewrite !first_page_read_all_lines.
Qed.

Lemma title_depends_on_first_pdf_page_witness :
  title (process_pdf_document "doc" sample_doc)
    = title (process_pdf_document "doc" [sample_page]).
Proof.
  apply (title_depends_on_first_pdf_page "doc" sample_page _ []).
  discriminate.
Defined.
